(** * Mergin browser plugin (Mergin/plugin.py): model and properties

    The plugin is glue between a GUI host, its settings store, the local
    file system and an HTTP client.  The embedding keeps that shape: every
    method of plugin.py is a computation in a small state-and-exception
    monad over the host state (settings store, file system, override-cursor
    stack, and a chronological trace of the calls made to the outside
    world); the collaborators the file imports but does not define
    (MerginClient, auth_ok, find_qgis_files, the user answering dialogs)
    are the fields of an environment record.

    Conventions of the model:
    - settings hold strings under normalised keys: like QSettings, every
      operation of the store first normalises the key it is given (slashes
      at either end dropped, runs of slashes collapsed), so two key strings
      that differ only in such slashes name one setting; keys are compared
      case-sensitively; [QSettings.remove] removes a key together with its
      sub-settings, as Qt documents it; what Qt does with a key that
      normalises to the empty string is not modelled (every key plugin.py
      passes starts with Mergin/);
    - the file system maps a path to the kind of node found there;
      [os.path.exists] accepts any node, [shutil.rmtree] only a directory;
    - [os.path.join] is the POSIX one;
    - exceptions carry their class, as far as the handlers of plugin.py
      distinguish classes, and their text;
    - [sip.transferto] (ownership of the C++ object) has no counterpart.

    Embedded: MerginProjectItem (constructor, download,
    remove_local_project, open_project, actions), MerginRootItem
    (constructor, createChildren) and DataItemProvider.createDataItem.
    The provider registration of MerginPlugin and the two dialogs the root
    item launches (configure, create_project) run code that lives outside
    plugin.py and are left out. *)

From Stdlib Require Import Ascii String.
From stdpp Require Import base strings gmap list pretty.

Open Scope string_scope.
Open Scope list_scope.

(** ** Python values and exceptions *)

(** Exception classes the handlers of plugin.py tell apart.  All of them
    derive from [Exception]; [URLError] also stands for its subclasses. *)
Inductive ExnClass := URLError | ValueError | OtherException.

Record Exn := { exn_class : ExnClass; exn_str : string }.

Inductive Outcome (A : Type) :=
| Returned (a : A)
| Raised (e : Exn).
Arguments Returned {A} a.
Arguments Raised {A} e.

(** Truth value of [None] / [str]: only a non-empty string is true. *)
Definition truthy (v : option string) : bool :=
  match v with
  | Some (String _ _) => true
  | _ => false
  end.

(** ** The state-and-exception monad *)

Definition M (S A : Type) : Type := S -> Outcome A * S.

Definition ret {S A} (a : A) : M S A := fun s => (Returned a, s).

Definition raise {S A} (e : Exn) : M S A := fun s => (Raised e, s).

Definition bind {S A B} (c : M S A) (k : A -> M S B) : M S B :=
  fun s =>
    match c s with
    | (Returned a, s') => k a s'
    | (Raised e, s') => (Raised e, s')
    end.

(** [try: body except C1: h1 except C2: h2 ...]: the first clause whose
    class test accepts the exception handles it; an exception no clause
    accepts propagates, with the state the body left behind. *)
Fixpoint handle {S A} (clauses : list ((ExnClass -> bool) * (Exn -> M S A)))
    (e : Exn) : M S A :=
  match clauses with
  | [] => raise e
  | (catches, handler) :: rest =>
      if catches (exn_class e) then handler e else handle rest e
  end.

Definition try_except {S A} (body : M S A)
    (clauses : list ((ExnClass -> bool) * (Exn -> M S A))) : M S A :=
  fun s =>
    match body s with
    | (Returned a, s') => (Returned a, s')
    | (Raised e, s') => handle clauses e s'
    end.

(** Class tests of the [except] clauses used in plugin.py. *)
Definition except_URLError (c : ExnClass) : bool :=
  match c with URLError => true | _ => false end.

Definition except_URLError_ValueError (c : ExnClass) : bool :=
  match c with URLError | ValueError => true | OtherException => false end.

Definition except_Exception (c : ExnClass) : bool := true.

Definition gets {S A} (f : S -> A) : M S A := fun s => (Returned (f s), s).

Definition modify {S} (f : S -> S) : M S unit := fun s => (Returned tt, f s).

Declare Scope py_scope.
Delimit Scope py_scope with py.
Notation "x <- c ;; k" := (bind c (fun x => k))
  (at level 100, c at next level, right associativity) : py_scope.
Notation "c ;; k" := (bind c (fun _ => k))
  (at level 100, k at level 200, right associativity) : py_scope.
Open Scope py_scope.

(** ** Host state *)

Inductive NodeKind := Directory | RegularFile.

Inductive Cursor := WaitCursor.

(** Buttons of the Yes/No question box. *)
Inductive Button := Yes | No.

Record MerginClient := {
  mc_url : string;
  mc_username : string;
  mc_password : string;
}.

(** What [projects_list] returns: dictionaries with (at least) a name. *)
Record Project := { proj_name : string }.

(** Calls that leave plugin.py, in the order they are made. *)
Inductive Event :=
| EvSettingsValue (key : string)
| EvSettingsSetValue (key value : string)
| EvSettingsRemove (key : string)
| EvAuthOk (url username password : string)
| EvProjectsList (mc : MerginClient) (filters : list string)
| EvDownloadProject (mc : MerginClient) (name target_dir : string)
| EvGetExistingDirectory
| EvQuestion (title msg : string)
| EvCritical (title msg : string)
| EvWarning (title msg : string)
| EvRmtree (dir : string)
| EvFindQgisFiles (dir : string)
| EvProjectRead (file : string).

Record Host := {
  settings : gmap string string;     (* QSettings() *)
  fs : gmap string NodeKind;         (* local file system *)
  cursors : list Cursor;             (* QApplication override-cursor stack *)
  trace : list Event;
}.

(** The collaborators.  A client call may change the file system whether
    it succeeds or not; dialogs answer as the user does. *)
Record Env := {
  env_auth_ok : string -> string -> string -> bool;
  env_projects_list : MerginClient -> list string -> Outcome (list Project);
  env_download_project :
    MerginClient -> string -> string -> gmap string NodeKind ->
    Outcome unit * gmap string NodeKind;
  env_find_qgis_files : gmap string NodeKind -> string -> list string;
  env_getExistingDirectory : string;
  env_question : string -> string -> Button;
}.

Definition emit (e : Event) : M Host unit :=
  modify (fun h => {| settings := settings h; fs := fs h;
                      cursors := cursors h; trace := trace h ++ [e] |}).

(** *** QSettings *)

(** QSettings normalises every key it is given: leading and trailing
    slashes are dropped and runs of slashes collapse to one.  [pending]
    says that a slash is owed before the next character, [started] that a
    character was already produced. *)
Fixpoint normalize (pending started : bool) (key : string) : string :=
  match key with
  | "" => ""
  | String c rest =>
      if Ascii.eqb c "/"%char then normalize started started rest
      else if pending then String "/"%char (String c (normalize false true rest))
      else String c (normalize false true rest)
  end.

Definition normalized_key (key : string) : string :=
  normalize false false key.

(** [key] itself or a sub-setting of the group [key]. *)
Definition in_group (key k : string) : bool :=
  String.eqb key k || String.prefix (key +:+ "/") k.

(** [settings.value(key, default)] with a string default. *)
Definition settings_value (key default : string) : M Host string :=
  emit (EvSettingsValue key) ;;
  gets (fun h => match settings h !! normalized_key key with
                 | Some v => v
                 | None => default
                 end).

(** [settings.value(key, None)]. *)
Definition settings_value_or_None (key : string) : M Host (option string) :=
  emit (EvSettingsValue key) ;;
  gets (fun h => settings h !! normalized_key key).

Definition settings_setValue (key value : string) : M Host unit :=
  emit (EvSettingsSetValue key value) ;;
  modify (fun h => {| settings := <[normalized_key key := value]> (settings h);
                      fs := fs h; cursors := cursors h; trace := trace h |}).

(** [settings.remove(key)]: Qt removes the setting the (normalised) key
    names and every sub-setting of it. *)
Definition settings_remove (key : string) : M Host unit :=
  emit (EvSettingsRemove key) ;;
  modify (fun h =>
    {| settings := filter (fun kv => in_group (normalized_key key) kv.1 = false)
                     (settings h);
       fs := fs h; cursors := cursors h; trace := trace h |}).

(** *** os.path, shutil *)

Fixpoint ends_with_sep (s : string) : bool :=
  match s with
  | "" => false
  | String c "" => Ascii.eqb c "/"%char
  | String _ s' => ends_with_sep s'
  end.

(** posixpath.join for two components. *)
Definition os_path_join (a b : string) : string :=
  if String.prefix "/" b then b
  else if truthy (Some a) && negb (ends_with_sep a) then a +:+ "/" +:+ b
  else a +:+ b.

Definition os_path_exists (p : string) : M Host bool :=
  gets (fun h => bool_decide (is_Some (fs h !! p))).

(** [shutil.rmtree(p)]: removes the directory and all below it; anything
    that is not a directory raises (an [OSError]). *)
Definition shutil_rmtree (p : string) : M Host unit :=
  emit (EvRmtree p) ;;
  k <- gets (fun h => fs h !! p) ;;
  match k with
  | Some Directory =>
      modify (fun h =>
        {| settings := settings h;
           fs := filter (fun kv => in_group p kv.1 = false) (fs h);
           cursors := cursors h; trace := trace h |})
  | Some RegularFile =>
      raise {| exn_class := OtherException; exn_str := "Not a directory" |}
  | None =>
      raise {| exn_class := OtherException; exn_str := "No such file" |}
  end.

(** *** QApplication override cursor *)

Definition setOverrideCursor (c : Cursor) : M Host unit :=
  modify (fun h => {| settings := settings h; fs := fs h;
                      cursors := c :: cursors h; trace := trace h |}).

Definition restoreOverrideCursor : M Host unit :=
  modify (fun h => {| settings := settings h; fs := fs h;
                      cursors := tail (cursors h); trace := trace h |}).

(** ** Tree items *)

Inductive ItemState := NotPopulated | Populated.

(** MerginProjectItem: the QgsDataItem part (name, browser path, state,
    icon) and the two fields the class adds. *)
Record MerginProjectItem := {
  item_name : string;
  item_path : string;
  item_state : ItemState;
  icon : string;                 (* file under icon_path *)
  project_name : string;
  path : option string;
}.

Record MerginRootItem := {
  root_name : string;
  root_path : string;
  root_icon : string;
}.

Inductive QgsDataItem :=
| RootItem (r : MerginRootItem)
| ProjectItem (it : MerginProjectItem)
| QgsErrorItem (name item_path : string).

(** What a menu entry is connected to. *)
Inductive Slot := SlotDownload | SlotRemoveLocalProject | SlotOpenProject.

Record QAction := {
  action_icon : option string;
  action_text : string;
  action_triggered : Slot;
}.

Definition nl : string := String (ascii_of_nat 10) "".

(** ['Mergin/localProjects/{}/path'.format(project_name)] *)
Definition local_path_key (project_name : string) : string :=
  "Mergin/localProjects/" +:+ project_name +:+ "/path".

Definition setState (st : ItemState) (it : MerginProjectItem)
    : MerginProjectItem :=
  {| item_name := item_name it; item_path := item_path it; item_state := st;
     icon := icon it; project_name := project_name it; path := path it |}.

(** Methods of a project item run on the pair (self, host). *)
Definition host {A} (c : M Host A) : M (MerginProjectItem * Host) A :=
  fun s => match c s.2 with (o, h') => (o, (s.1, h')) end.

Definition self_path : M (MerginProjectItem * Host) (option string) :=
  gets (fun s => path s.1).

Definition self_project_name : M (MerginProjectItem * Host) string :=
  gets (fun s => project_name s.1).

Definition set_path (v : option string) : M (MerginProjectItem * Host) unit :=
  modify (fun s =>
    ({| item_name := item_name s.1; item_path := item_path s.1;
        item_state := item_state s.1; icon := icon s.1;
        project_name := project_name s.1; path := v |}, s.2)).

Definition setIcon (i : string) : M (MerginProjectItem * Host) unit :=
  modify (fun s =>
    ({| item_name := item_name s.1; item_path := item_path s.1;
        item_state := item_state s.1; icon := i;
        project_name := project_name s.1; path := path s.1 |}, s.2)).

Section Plugin.

Variable env : Env.

(** *** Calls to the collaborators *)

Definition auth_ok (url username password : string) : M Host bool :=
  emit (EvAuthOk url username password) ;;
  ret (env_auth_ok env url username password).

Definition projects_list (mc : MerginClient) (filters : list string)
    : M Host (list Project) :=
  emit (EvProjectsList mc filters) ;;
  fun h => (env_projects_list env mc filters, h).

Definition download_project (mc : MerginClient) (name target_dir : string)
    : M Host unit :=
  emit (EvDownloadProject mc name target_dir) ;;
  fun h =>
    match env_download_project env mc name target_dir (fs h) with
    | (o, fs') => (o, {| settings := settings h; fs := fs';
                         cursors := cursors h; trace := trace h |})
    end.

Definition find_qgis_files (dir : string) : M Host (list string) :=
  emit (EvFindQgisFiles dir) ;;
  gets (fun h => env_find_qgis_files env (fs h) dir).

Definition getExistingDirectory : M Host string :=
  emit EvGetExistingDirectory ;;
  ret (env_getExistingDirectory env).

Definition question (title msg : string) : M Host Button :=
  emit (EvQuestion title msg) ;;
  ret (env_question env title msg).

Definition critical (title msg : string) : M Host unit :=
  emit (EvCritical title msg).

Definition warning (title msg : string) : M Host unit :=
  emit (EvWarning title msg).

Definition QgsProject_read (file : string) : M Host unit :=
  emit (EvProjectRead file).

(** *** MerginProjectItem *)

Definition MerginProjectItem_init (project_name : string)
    : M Host MerginProjectItem :=
  p <- settings_value_or_None (local_path_key project_name) ;;
  (* check local project dir was not unintentionally removed *)
  p <- match p with
       | Some (String _ _ as d) =>
           ex <- os_path_exists d ;;
           ret (if negb ex then None else p)
       | _ => ret p
       end ;;
  ret {| item_name := project_name;
         item_path := "/Mergin/" +:+ project_name;
         item_state := NotPopulated;
         icon := if truthy p then "folder-solid.svg" else "cloud-solid.svg";
         project_name := project_name;
         path := p |}.

Definition open_project : M (MerginProjectItem * Host) unit :=
  p <- self_path ;;
  match p with
  | Some (String _ _ as d) =>
      qgis_files <- host (find_qgis_files d) ;;
      if Nat.eqb (length qgis_files) 1 then
        match qgis_files with
        | f :: _ => host (QgsProject_read f)
        | [] => raise {| exn_class := OtherException; exn_str := "IndexError" |}
        end
      else
        host (warning "Load QGIS project"
                ("Plugin can only load project with single QGIS file but "
                 +:+ pretty (length qgis_files) +:+ " found."))
  | _ => ret tt
  end.

Definition download : M (MerginProjectItem * Host) unit :=
  parent_dir <- host getExistingDirectory ;;
  if negb (truthy (Some parent_dir)) then ret tt else
  name <- self_project_name ;;
  let target_dir := os_path_join parent_dir name in
  url <- host (settings_value "Mergin/URL" "https://public.cloudmergin.com") ;;
  username <- host (settings_value "Mergin/username" "") ;;
  password <- host (settings_value "Mergin/password" "") ;;
  let mc := {| mc_url := url; mc_username := username;
               mc_password := password |} in
  host (setOverrideCursor WaitCursor) ;;
  try_except
    (host (download_project mc name target_dir) ;;
     host (settings_setValue (local_path_key name) target_dir) ;;
     set_path (Some target_dir) ;;
     setIcon "folder-solid.svg" ;;
     host restoreOverrideCursor ;;
     btn_reply <- host (question "Project download"
       ("Your project " +:+ name +:+ " has been successfully downloaded. "
        +:+ "Do you want to open project file?")) ;;
     match btn_reply with
     | Yes => open_project
     | No => ret tt
     end)
    [(except_URLError_ValueError,
      fun _ =>
        host restoreOverrideCursor ;;
        host (critical "Project download"
          ("Failed to download your project " +:+ name +:+ "." +:+ nl
           +:+ "Please make sure your Mergin settings are correct")))].

Definition remove_local_project : M (MerginProjectItem * Host) unit :=
  p <- self_path ;;
  match p with
  | Some (String _ _ as d) =>
      name <- self_project_name ;;
      btn_reply <- host (question "Remove local project"
        ("Your local changes will be lost. Make sure your project is "
         +:+ "synchronised with server. " +:+ nl +:+ nl
         +:+ "Do you want to proceed?")) ;;
      match btn_reply with
      | No => ret tt
      | Yes =>
          ex <- host (os_path_exists d) ;;
          (if ex then host (shutil_rmtree d) else ret tt) ;;
          host (settings_remove (local_path_key name)) ;;
          set_path None ;;
          setIcon "cloud-solid.svg"
      end
  | _ => ret tt
  end.

Definition actions (self : MerginProjectItem) : list QAction :=
  let action_download :=
    {| action_icon := Some "cloud-download-alt-solid.svg";
       action_text := "Download"; action_triggered := SlotDownload |} in
  let action_remove_local :=
    {| action_icon := Some "trash-solid.svg";
       action_text := "Remove locally";
       action_triggered := SlotRemoveLocalProject |} in
  let action_open_project :=
    {| action_icon := None; action_text := "Open QGIS project";
       action_triggered := SlotOpenProject |} in
  if truthy (path self) then [action_open_project; action_remove_local]
  else [action_download].

(** *** MerginRootItem *)

Definition MerginRootItem_init : MerginRootItem :=
  {| root_name := "Mergin"; root_path := "/Mergin";
     root_icon := "images/icon.png" |}.

(** The [for project in projects] loop of createChildren. *)
Fixpoint project_items (projects : list Project) : M Host (list QgsDataItem) :=
  match projects with
  | [] => ret []
  | project :: rest =>
      item <- MerginProjectItem_init (proj_name project) ;;
      let item := setState Populated item in   (* make it non-expandable *)
      items <- project_items rest ;;
      ret (ProjectItem item :: items)
  end.

Definition createChildren : M Host (list QgsDataItem) :=
  url <- settings_value "Mergin/URL" "https://public.cloudmergin.com" ;;
  username <- settings_value "Mergin/username" "" ;;
  password <- settings_value "Mergin/password" "" ;;
  ok <- auth_ok url username password ;;
  if negb ok then
    ret [QgsErrorItem "Failed to get projects from server" "/Mergin/error"]
  else
  let mc := {| mc_url := url; mc_username := username;
               mc_password := password |} in
  r <- try_except
         (projects <- projects_list mc ["valid_qgis"] ;; ret (inr projects))
         [(except_URLError,
           fun _ => ret (inl [QgsErrorItem "Failed to get projects from server"
                                           "/Mergin/error"]));
          (except_Exception,
           fun err => ret (inl [QgsErrorItem ("Error: " +:+ exn_str err)
                                             "/Mergin/error"]))] ;;
  match r with
  | inl early => ret early
  | inr projects => project_items projects
  end.

(** *** DataItemProvider *)

Definition createDataItem (path : string) (parentItem : option QgsDataItem)
    : option MerginRootItem :=
  match parentItem with
  | None => Some MerginRootItem_init
  | Some _ => None
  end.

End Plugin.

(** ** Vocabulary of the statements *)

Definition folder_icon : string := "folder-solid.svg".
Definition cloud_icon : string := "cloud-solid.svg".

(** The three user actions of a project item, by what they trigger. *)
Definition offered (self : MerginProjectItem) : list Slot :=
  map action_triggered (actions self).

(** Keys handed to QSettings in a stretch of the trace. *)
Definition settings_keys (evs : list Event) : list string :=
  omap (fun e => match e with
                 | EvSettingsValue k
                 | EvSettingsSetValue k _
                 | EvSettingsRemove k => Some k
                 | _ => None
                 end) evs.

Definition connection_keys : list string :=
  ["Mergin/URL"; "Mergin/username"; "Mergin/password"].

(** Project files handed to [QgsProject.instance().read]. *)
Definition loaded_files (evs : list Event) : list string :=
  omap (fun e => match e with EvProjectRead f => Some f | _ => None end) evs.

Definition warnings (evs : list Event) : list (string * string) :=
  omap (fun e => match e with EvWarning t m => Some (t, m) | _ => None end) evs.

Definition critical_dialogs (evs : list Event) : list (string * string) :=
  omap (fun e => match e with EvCritical t m => Some (t, m) | _ => None end) evs.

(** Targets of the [download_project] calls made. *)
Definition download_calls (evs : list Event) : list (string * string) :=
  omap (fun e => match e with
                 | EvDownloadProject _ n t => Some (n, t)
                 | _ => None
                 end) evs.

(** The client both createChildren and download build from the settings. *)
Definition configured_client (st : gmap string string) : MerginClient :=
  {| mc_url := match st !! "Mergin/URL" with
               | Some v => v
               | None => "https://public.cloudmergin.com"
               end;
     mc_username := match st !! "Mergin/username" with
                    | Some v => v
                    | None => ""
                    end;
     mc_password := match st !! "Mergin/password" with
                    | Some v => v
                    | None => ""
                    end |}.

(** The host after more calls were recorded. *)
Definition extend (h : Host) (evs : list Event) : Host :=
  {| settings := settings h; fs := fs h; cursors := cursors h;
     trace := trace h ++ evs |}.

Definition connection_reads : list Event :=
  map EvSettingsValue connection_keys.

(** The directory a download of [self] goes to. *)
Definition download_target env (self : MerginProjectItem) : string :=
  os_path_join (env_getExistingDirectory env) (project_name self).

(** [self] after a download to [target_dir] went through. *)
Definition downloaded (self : MerginProjectItem) (target_dir : string)
    : MerginProjectItem :=
  {| item_name := item_name self; item_path := item_path self;
     item_state := item_state self; icon := folder_icon;
     project_name := project_name self; path := Some target_dir |}.

(** [self] after its local copy was removed. *)
Definition removed (self : MerginProjectItem) : MerginProjectItem :=
  {| item_name := item_name self; item_path := item_path self;
     item_state := item_state self; icon := cloud_icon;
     project_name := project_name self; path := None |}.

(** The question download asks once the project is there. *)
Definition downloaded_question (name : string) : string :=
  "Your project " +:+ name +:+ " has been successfully downloaded. "
  +:+ "Do you want to open project file?".

(** The question remove_local_project asks. *)
Definition remove_local_question : string :=
  "Your local changes will be lost. Make sure your project is "
  +:+ "synchronised with server. " +:+ nl +:+ nl +:+ "Do you want to proceed?".

Definition child_project_name (i : QgsDataItem) : option string :=
  match i with
  | ProjectItem it => Some (project_name it)
  | _ => None
  end.

Definition failed_node : QgsDataItem :=
  QgsErrorItem "Failed to get projects from server" "/Mergin/error".

Definition auth_calls (evs : list Event) : list (string * string * string) :=
  omap (fun e => match e with
                 | EvAuthOk u n p => Some (u, n, p)
                 | _ => None
                 end) evs.

Definition listing_calls (evs : list Event)
    : list (MerginClient * list string) :=
  omap (fun e => match e with
                 | EvProjectsList mc f => Some (mc, f)
                 | _ => None
                 end) evs.

Definition rmtree_calls (evs : list Event) : list string :=
  omap (fun e => match e with EvRmtree d => Some d | _ => None end) evs.

Definition questions (evs : list Event) : list (string * string) :=
  omap (fun e => match e with EvQuestion t m => Some (t, m) | _ => None end) evs.

(** The local path of a project as host [h] remembers it: the stored
    string, unless it is non-empty and nothing exists there. *)
Definition stored_path (h : Host) (name : string) : option string :=
  match settings h !! normalized_key (local_path_key name) with
  | Some (String c d') =>
      if bool_decide (is_Some (fs h !! String c d'))
      then Some (String c d') else None
  | other => other
  end.

(** The child createChildren builds for project [name] on host [h]. *)
Definition built_child (h : Host) (name : string) : QgsDataItem :=
  ProjectItem
    {| item_name := name; item_path := "/Mergin/" +:+ name;
       item_state := Populated;
       icon := if truthy (stored_path h name) then folder_icon else cloud_icon;
       project_name := name; path := stored_path h name |}.

(** What a child returned by createChildren looks like on host [h]. *)
Definition child_ok (h : Host) (i : QgsDataItem) : Prop :=
  match i with
  | ProjectItem it =>
      item_state it = Populated
      /\ item_name it = project_name it
      /\ item_path it = "/Mergin/" +:+ project_name it
      /\ icon it = (if truthy (path it) then folder_icon else cloud_icon)
      /\ (forall d, path it = Some d ->
          settings h !! normalized_key (local_path_key (project_name it))
            = Some d
          /\ (d <> "" -> is_Some (fs h !! d)))
  | QgsErrorItem _ p => p = "/Mergin/error"
  | RootItem _ => False
  end.

(** ** Sample hosts, items and environments *)

Definition empty_host : Host :=
  {| settings := ∅; fs := ∅; cursors := []; trace := [] |}.

Definition remote_item (name : string) : MerginProjectItem :=
  {| item_name := name; item_path := "/Mergin/" +:+ name;
     item_state := Populated; icon := cloud_icon;
     project_name := name; path := None |}.

Definition local_item (name dir : string) : MerginProjectItem :=
  {| item_name := name; item_path := "/Mergin/" +:+ name;
     item_state := Populated; icon := folder_icon;
     project_name := name; path := Some dir |}.

(** A host whose stored path for project alpha names a regular file. *)
Definition file_host : Host :=
  {| settings := {[ local_path_key "alpha" := "/data/alpha" ]};
     fs := {[ "/data/alpha" := RegularFile ]};
     cursors := []; trace := [] |}.

(** A host that remembers a directory for alpha which is no longer there. *)
Definition stale_host : Host :=
  {| settings := {[ local_path_key "alpha" := "/data/alpha" ]};
     fs := ∅; cursors := []; trace := [] |}.

(** A host with alpha downloaded to /data/alpha. *)
Definition alpha_host : Host :=
  {| settings := {[ local_path_key "alpha" := "/data/alpha" ]};
     fs := {[ "/data/alpha" := Directory ]};
     cursors := []; trace := [] |}.

(** Projects a and a/path both downloaded: the key of the second lies in
    the settings group of the key of the first. *)
Definition nested_host : Host :=
  {| settings := <[ local_path_key "a" := "/d/a" ]>
                   {[ local_path_key "a/path" := "/d/x" ]};
     fs := <[ "/d/a" := Directory ]> {[ "/d/x" := Directory ]};
     cursors := []; trace := [] |}.

(** A host showing the wait cursor of some other operation. *)
Definition busy_host : Host :=
  {| settings := {[ "Mergin/URL" := "https://example.org" ]};
     fs := ∅; cursors := [WaitCursor]; trace := [] |}.

Definition unreachable : Exn :=
  {| exn_class := URLError; exn_str := "unreachable" |}.
Definition bad_reply : Exn :=
  {| exn_class := ValueError; exn_str := "bad reply" |}.
Definition boom : Exn :=
  {| exn_class := OtherException; exn_str := "boom" |}.

(** A server that lists two projects and serves downloads; the user picks
    /home/user and answers Yes. *)
Definition good_env : Env :=
  {| env_auth_ok := fun _ _ _ => true;
     env_projects_list := fun _ _ =>
       Returned [ {| proj_name := "alpha" |}; {| proj_name := "beta" |} ];
     env_download_project := fun _ _ target fs0 =>
       (Returned tt, <[target := Directory]> fs0);
     env_find_qgis_files := fun _ dir => [dir +:+ "/project.qgs"];
     env_getExistingDirectory := "/home/user";
     env_question := fun _ _ => Yes |}.

(** As [good_env], with a client whose calls end as [listing] and
    [download] say, and [auth] as the answer of the credentials check. *)
Definition failing_env (auth : bool) (listing : Outcome (list Project))
    (download : Outcome unit) : Env :=
  {| env_auth_ok := fun _ _ _ => auth;
     env_projects_list := fun _ _ => listing;
     env_download_project := fun _ _ _ fs0 => (download, fs0);
     env_find_qgis_files := fun _ _ => [];
     env_getExistingDirectory := "/home/user";
     env_question := fun _ _ => Yes |}.

(** [good_env] with a user who cancels the directory dialog and answers No. *)
Definition declining_env : Env :=
  {| env_auth_ok := env_auth_ok good_env;
     env_projects_list := env_projects_list good_env;
     env_download_project := env_download_project good_env;
     env_find_qgis_files := env_find_qgis_files good_env;
     env_getExistingDirectory := "";
     env_question := fun _ _ => No |}.

(** ** Properties *)

(** *** The model on sample runs *)

Example os_path_join_plain :
  os_path_join "/home/user" "alpha" = "/home/user/alpha".
Proof. reflexivity. Qed.

Example os_path_join_trailing_sep :
  os_path_join "/home/user/" "alpha" = "/home/user/alpha".
Proof. reflexivity. Qed.

Example os_path_join_absolute :
  os_path_join "/home/user" "/srv/alpha" = "/srv/alpha".
Proof. reflexivity. Qed.

Example normalized_key_slashes :
  normalized_key "/Mergin//localProjects/alpha//path/"
  = "Mergin/localProjects/alpha/path".
Proof. reflexivity. Qed.

(** Downloading a project named alpha/ on a host that remembers project
    alpha: the two names share one record, which now holds the new target. *)
Example download_trailing_slash_shares_record :
  exists self' h',
    download good_env (remote_item "alpha/", alpha_host)
      = (Returned tt, (self', h'))
    /\ settings alpha_host !! local_path_key "alpha" = Some "/data/alpha"
    /\ settings h' !! local_path_key "alpha" = Some "/home/user/alpha/".
Proof.
  eexists _, _. split; [vm_compute; reflexivity|].
  split; vm_compute; reflexivity.
Qed.

(** Expanding the root on a fresh host: three settings reads, the
    credentials check, the listing, then one settings read per project. *)
Example createChildren_good_env :
  createChildren good_env empty_host =
    (Returned [ProjectItem (remote_item "alpha");
               ProjectItem (remote_item "beta")],
     extend empty_host
       (connection_reads ++
        [EvAuthOk "https://public.cloudmergin.com" "" "";
         EvProjectsList (configured_client ∅) ["valid_qgis"];
         EvSettingsValue (local_path_key "alpha");
         EvSettingsValue (local_path_key "beta")])).
Proof. vm_compute. reflexivity. Qed.

(** Downloading alpha, answering Yes, with a single project file found. *)
Example download_good_env :
  download good_env (remote_item "alpha", empty_host) =
    (Returned tt,
     (local_item "alpha" "/home/user/alpha",
      {| settings := {[ local_path_key "alpha" := "/home/user/alpha" ]};
         fs := {[ "/home/user/alpha" := Directory ]};
         cursors := [];
         trace :=
           EvGetExistingDirectory :: connection_reads ++
           [EvDownloadProject (configured_client ∅) "alpha" "/home/user/alpha";
            EvSettingsSetValue (local_path_key "alpha") "/home/user/alpha";
            EvQuestion "Project download" (downloaded_question "alpha");
            EvFindQgisFiles "/home/user/alpha";
            EvProjectRead "/home/user/alpha/project.qgs"] |})).
Proof. vm_compute. reflexivity. Qed.

(** Removing the local copy again. *)
Example remove_local_project_good_env :
  remove_local_project good_env (local_item "alpha" "/data/alpha", alpha_host)
  = (Returned tt,
     (remote_item "alpha",
      {| settings := ∅; fs := ∅; cursors := [];
         trace := [EvQuestion "Remove local project" remove_local_question;
                   EvRmtree "/data/alpha";
                   EvSettingsRemove (local_path_key "alpha")] |})).
Proof. vm_compute. reflexivity. Qed.

(** *** DataItemProvider.createDataItem *)

(** C6. createDataItem returns the Mergin root item exactly when it is
    called without a parent item, and no item whenever a parent is given. *)
Theorem createDataItem_top_level_only (p : string)
    (parentItem : option QgsDataItem) :
  (createDataItem p parentItem = Some MerginRootItem_init
     <-> parentItem = None)
  /\ (is_Some parentItem -> createDataItem p parentItem = None).
Proof.
  destruct parentItem as [parent|]; cbn; split.
  - split; discriminate.
  - reflexivity.
  - split; reflexivity.
  - intros [x Hx]. discriminate.
Qed.

Lemma createDataItem_top_level_only_witness :
  is_Some (Some (RootItem MerginRootItem_init))
  /\ createDataItem "" (Some (RootItem MerginRootItem_init)) = None.
Proof.
  split.
  - exists (RootItem MerginRootItem_init). reflexivity.
  - apply (createDataItem_top_level_only ""
             (Some (RootItem MerginRootItem_init))).
    exists (RootItem MerginRootItem_init). reflexivity.
Defined.

(** *** MerginProjectItem.actions *)

(** C4, as the claim states it, fails: an item without a local path is
    offered the download action only. *)
Lemma actions_remote_item_counterexample :
  offered (remote_item "alpha") = [SlotDownload]
  /\ ~ In SlotOpenProject (offered (remote_item "alpha"))
  /\ ~ In SlotRemoveLocalProject (offered (remote_item "alpha")).
Proof.
  split; [reflexivity|].
  split; cbn; intros [H|[]]; discriminate H.
Qed.

(** C4, amended. The menu of a project item depends on its local path:
    with a local path it offers open and remove-local (in that order), and
    without one it offers download alone; it never offers all three. *)
Theorem actions_by_local_path (self : MerginProjectItem) :
  offered self =
    if truthy (path self) then [SlotOpenProject; SlotRemoveLocalProject]
    else [SlotDownload].
Proof.
  unfold offered, actions.
  destruct (truthy (path self)); reflexivity.
Qed.

(** *** MerginProjectItem.open_project *)

Ltac run_monad :=
  unfold bind, host, ret, raise, gets, modify, emit; cbn.

(** Use an equation about a collaborator's answer, up to conversion. *)
Ltac answer H :=
  match type of H with
  | ?f _ _ _ _ = ?r =>
      match goal with
      | |- context [f ?a ?b ?c ?d] =>
          replace (f a b c d) with r by (symmetry; exact H)
      end
  | ?f _ _ = ?r =>
      match goal with
      | |- context [f ?a ?b] =>
          replace (f a b) with r by (symmetry; exact H)
      end
  end.

(** What open_project does, case by case: it always returns, leaves the
    item alone and only extends the trace. *)
Lemma open_project_run env self h :
  exists evs,
    open_project env (self, h) =
      (Returned tt,
       (self, {| settings := settings h; fs := fs h;
                 cursors := cursors h; trace := trace h ++ evs |}))
    /\ evs =
       match path self with
       | Some (String c d') =>
           let files := env_find_qgis_files env (fs h) (String c d') in
           EvFindQgisFiles (String c d') ::
           match files with
           | [f] => [EvProjectRead f]
           | _ => [EvWarning "Load QGIS project"
                     ("Plugin can only load project with single QGIS file but "
                      +:+ pretty (length files) +:+ " found.")]
           end
       | _ => []
       end.
Proof.
  unfold open_project, self_path, find_qgis_files, QgsProject_read, warning.
  destruct self as [n ip st ic pn [[|c d']|]]; run_monad.
  - exists []. rewrite app_nil_r. destruct h; auto.
  - destruct (env_find_qgis_files env (fs h) (String c d')) as [|f [|g l]];
      cbn; eexists; (split; [rewrite <- app_assoc; reflexivity | reflexivity]).
  - exists []. rewrite app_nil_r. destruct h; auto.
Qed.

Arguments open_project : simpl never.

(** C8. open_project hands a project file to the host exactly when the
    item has a local path and find_qgis_files finds exactly one file there
    (and then it is that file, with no warning); with a path and any other
    number of files it shows one warning and loads nothing; without a local
    path it does nothing at all. *)
Theorem open_project_loads_single_file env (self : MerginProjectItem) h :
  exists evs h',
    open_project env (self, h) = (Returned tt, (self, h'))
    /\ trace h' = trace h ++ evs
    /\ (loaded_files evs <> [] <->
        exists d, path self = Some d /\ truthy (path self) = true
                  /\ length (env_find_qgis_files env (fs h) d) = 1)
    /\ (forall d, path self = Some d -> truthy (path self) = true ->
        length (env_find_qgis_files env (fs h) d) = 1 ->
        loaded_files evs = env_find_qgis_files env (fs h) d
        /\ warnings evs = [])
    /\ (forall d, path self = Some d -> truthy (path self) = true ->
        length (env_find_qgis_files env (fs h) d) <> 1 ->
        loaded_files evs = [] /\ length (warnings evs) = 1)
    /\ (truthy (path self) = false -> evs = [] /\ h' = h).
Proof.
  destruct (open_project_run env self h) as (evs & Hrun & Hevs).
  eexists evs, _. split; [exact Hrun|]. split; [reflexivity|].
  destruct (path self) as [[|c d']|] eqn:Hp; cbn in *.
  - (* the empty string: no local path *)
    subst evs. rewrite app_nil_r. split; [|split; [|split]].
    + split; [intros H; contradiction | intros (d & _ & H & _); discriminate].
    + intros d _ H; discriminate.
    + intros d _ H; discriminate.
    + intros _. split; [reflexivity | destruct h; reflexivity].
  - (* a local path *)
    destruct (env_find_qgis_files env (fs h) (String c d'))
      as [|f [|g l]] eqn:E; subst evs; cbn;
      (split; [|split; [|split]]);
      try (intros H; discriminate H);
      try (intros d Hd _ Hl; injection Hd as <-; rewrite E in *; cbn in *;
           first [lia | split; reflexivity]).
    + split; [intros H; contradiction|].
      intros (d & Hd & _ & Hl). injection Hd as <-. rewrite E in Hl.
      discriminate.
    + split; [|discriminate]. intros _. exists (String c d').
      rewrite E. auto.
    + split; [intros H; contradiction|].
      intros (d & Hd & _ & Hl). injection Hd as <-. rewrite E in Hl.
      discriminate.
  - (* None *)
    subst evs. rewrite app_nil_r. split; [|split; [|split]].
    + split; [intros H; contradiction | intros (d & H & _); discriminate].
    + intros d H; discriminate.
    + intros d H; discriminate.
    + intros _. split; [reflexivity | destruct h; reflexivity].
Qed.

Lemma open_project_loads_single_file_witness :
  exists evs h',
    open_project good_env (local_item "alpha" "/home/user/alpha", empty_host)
      = (Returned tt, (local_item "alpha" "/home/user/alpha", h'))
    /\ trace h' = evs
    /\ loaded_files evs = ["/home/user/alpha/project.qgs"]
    /\ warnings evs = [].
Proof.
  destruct (open_project_loads_single_file good_env
              (local_item "alpha" "/home/user/alpha") empty_host)
    as (evs & h' & Hrun & Htr & _ & Hone & _).
  exists evs, h'. split; [exact Hrun|]. split; [exact Htr|].
  apply (Hone "/home/user/alpha"); reflexivity.
Defined.

(** *** MerginProjectItem.download *)

Lemma download_run_cancelled env self h :
  truthy (Some (env_getExistingDirectory env)) = false ->
  download env (self, h) = (Returned tt, (self, extend h [EvGetExistingDirectory])).
Proof.
  intros Hd. unfold download, getExistingDirectory. run_monad.
  destruct (env_getExistingDirectory env); [reflexivity | discriminate].
Qed.

(** A download whose client call raises: the state when the exception
    reaches the [except] clause. *)
Lemma download_run_raised env self h e fs' :
  truthy (Some (env_getExistingDirectory env)) = true ->
  env_download_project env (configured_client (settings h))
    (project_name self) (download_target env self) (fs h) = (Raised e, fs') ->
  download env (self, h) =
    let called :=
      {| settings := settings h; fs := fs'; cursors := cursors h;
         trace := trace h ++ EvGetExistingDirectory :: connection_reads ++
                  [EvDownloadProject (configured_client (settings h))
                     (project_name self) (download_target env self)] |} in
    if except_URLError_ValueError (exn_class e) then
      (Returned tt,
       (self, extend called
                [EvCritical "Project download"
                   ("Failed to download your project " +:+ project_name self
                    +:+ "." +:+ nl
                    +:+ "Please make sure your Mergin settings are correct")]))
    else
      (Raised e,
       (self, {| settings := settings called; fs := fs called;
                 cursors := WaitCursor :: cursors h;
                 trace := trace called |})).
Proof.
  intros Hd Hf. unfold download_target, configured_client in *.
  unfold download, getExistingDirectory, settings_value, self_project_name,
    setOverrideCursor, restoreOverrideCursor, critical, try_except,
    download_project.
  run_monad.
  destruct (env_getExistingDirectory env) as [|c d]; [discriminate|].
  cbn in *. answer Hf. cbn.
  destruct (except_URLError_ValueError (exn_class e)); cbn;
    unfold extend; cbn; rewrite <- !app_assoc; reflexivity.
Qed.

(** A download whose client call returns. *)
Lemma download_run_succeeded env self h fs' :
  truthy (Some (env_getExistingDirectory env)) = true ->
  env_download_project env (configured_client (settings h))
    (project_name self) (download_target env self) (fs h)
    = (Returned tt, fs') ->
  exists evs,
    download env (self, h) =
      (Returned tt,
       (downloaded self (download_target env self),
        {| settings := <[normalized_key (local_path_key (project_name self))
                          := download_target env self]> (settings h);
           fs := fs'; cursors := cursors h;
           trace := trace h ++ EvGetExistingDirectory :: connection_reads ++
             [EvDownloadProject (configured_client (settings h))
                (project_name self) (download_target env self);
              EvSettingsSetValue (local_path_key (project_name self))
                (download_target env self);
              EvQuestion "Project download"
                (downloaded_question (project_name self))] ++ evs |}))
    /\ settings_keys evs = []
    /\ download_calls evs = []
    /\ (env_question env "Project download"
          (downloaded_question (project_name self)) = No -> evs = []).
Proof.
  intros Hd Hf. unfold download_target, configured_client in *.
  unfold download, getExistingDirectory, settings_value, self_project_name,
    setOverrideCursor, restoreOverrideCursor, question, try_except,
    download_project, settings_setValue, set_path, setIcon.
  run_monad.
  destruct (env_getExistingDirectory env) as [|c d]; [discriminate|].
  cbn in *. answer Hf. cbn. unfold downloaded_question, downloaded.
  destruct (env_question env _ _) eqn:Q.
  - match goal with
    | |- context [open_project env (?it, ?hh)] =>
        destruct (open_project_run env it hh) as (evs & Hrun & Hevs);
        rewrite Hrun
    end.
    exists evs. cbn. split; [rewrite <- !app_assoc; reflexivity|].
    cbn in Hevs. subst evs.
    destruct (os_path_join (String c d) (project_name self)) as [|c' t];
      [repeat split; discriminate|].
    destruct (env_find_qgis_files env fs' (String c' t)) as [|f [|g l]];
      repeat split; discriminate.
  - exists []. cbn. split; [rewrite <- !app_assoc; reflexivity|].
    repeat split.
Qed.

(** C3, as the claim states it, fails: when download_project fails with an
    exception that is neither URLError nor ValueError, the exception leaves
    download, no dialog is shown and the wait cursor stays. *)
Lemma download_other_exception_counterexample :
  exists self' h',
    download (failing_env true (Returned []) (Raised boom))
      (remote_item "alpha", empty_host) = (Raised boom, (self', h'))
    /\ critical_dialogs (trace h') = []
    /\ cursors h' = [WaitCursor]
    /\ cursors h' <> cursors empty_host.
Proof.
  eexists _, _. split; [vm_compute; reflexivity|].
  cbn. repeat split. discriminate.
Qed.

(** C3, amended to the failures download handles. When the client's
    download_project raises URLError or ValueError, download returns
    normally having shown exactly one critical dialog, the override-cursor
    stack is what it was before the wait cursor was set, and
    download_project was called exactly once (no retry). *)
Theorem download_failure_reported env (self : MerginProjectItem) h e fs' :
  truthy (Some (env_getExistingDirectory env)) = true ->
  env_download_project env (configured_client (settings h))
    (project_name self) (download_target env self) (fs h) = (Raised e, fs') ->
  exn_class e = URLError \/ exn_class e = ValueError ->
  exists evs self' h',
    download env (self, h) = (Returned tt, (self', h'))
    /\ trace h' = trace h ++ evs
    /\ critical_dialogs evs =
         [("Project download",
           "Failed to download your project " +:+ project_name self +:+ "."
           +:+ nl +:+ "Please make sure your Mergin settings are correct")]
    /\ cursors h' = cursors h
    /\ download_calls evs = [(project_name self, download_target env self)].
Proof.
  intros Hd Hf Hc.
  rewrite (download_run_raised env self h e fs' Hd Hf).
  replace (except_URLError_ValueError (exn_class e)) with true
    by (destruct Hc as [-> | ->]; reflexivity).
  cbn. eexists _, self, _. split; [reflexivity|].
  cbn. rewrite <- app_assoc. split; [reflexivity|].
  repeat split.
Qed.

Lemma download_failure_reported_witness :
  exists evs self' h',
    download (failing_env true (Returned []) (Raised unreachable))
      (remote_item "alpha", empty_host) = (Returned tt, (self', h'))
    /\ trace h' = trace empty_host ++ evs
    /\ critical_dialogs evs =
         [("Project download",
           "Failed to download your project " +:+ "alpha" +:+ "."
           +:+ nl +:+ "Please make sure your Mergin settings are correct")]
    /\ cursors h' = cursors empty_host
    /\ download_calls evs = [("alpha", "/home/user/alpha")].
Proof.
  apply (download_failure_reported
           (failing_env true (Returned []) (Raised unreachable))
           (remote_item "alpha") empty_host unreachable ∅).
  - reflexivity.
  - reflexivity.
  - left. reflexivity.
Defined.

(** C9. A download whose client call raises URLError or ValueError leaves
    the item as it was: the setting Mergin/localProjects/<name>/path (the
    whole settings store, in fact), the item's path and its icon are what
    they were before the download. *)
Theorem download_failure_atomic env (self : MerginProjectItem) h e fs' :
  truthy (Some (env_getExistingDirectory env)) = true ->
  env_download_project env (configured_client (settings h))
    (project_name self) (download_target env self) (fs h) = (Raised e, fs') ->
  exn_class e = URLError \/ exn_class e = ValueError ->
  exists self' h',
    download env (self, h) = (Returned tt, (self', h'))
    /\ settings h' !! local_path_key (project_name self)
        = settings h !! local_path_key (project_name self)
    /\ settings h' = settings h
    /\ path self' = path self
    /\ icon self' = icon self.
Proof.
  intros Hd Hf Hc.
  rewrite (download_run_raised env self h e fs' Hd Hf).
  replace (except_URLError_ValueError (exn_class e)) with true
    by (destruct Hc as [-> | ->]; reflexivity).
  cbn. eexists self, _. split; [reflexivity|]. cbn. repeat split.
Qed.

Lemma download_failure_atomic_witness :
  exists self' h',
    download (failing_env true (Returned []) (Raised bad_reply))
      (local_item "alpha" "/data/alpha", alpha_host)
      = (Returned tt, (self', h'))
    /\ settings h' !! local_path_key "alpha"
        = settings alpha_host !! local_path_key "alpha"
    /\ settings h' = settings alpha_host
    /\ path self' = Some "/data/alpha"
    /\ icon self' = folder_icon.
Proof.
  apply (download_failure_atomic
           (failing_env true (Returned []) (Raised bad_reply))
           (local_item "alpha" "/data/alpha") alpha_host bad_reply
           (fs alpha_host)).
  - reflexivity.
  - reflexivity.
  - right. reflexivity.
Defined.

(** *** QSettings.remove *)

Lemma in_group_refl key : in_group key key = true.
Proof. unfold in_group. rewrite String.eqb_refl. reflexivity. Qed.

Lemma lookup_removed key (st : gmap string string) k :
  filter (fun kv => in_group key kv.1 = false) st !! k =
    if in_group key k then None else st !! k.
Proof.
  destruct (in_group key k) eqn:G.
  - apply map_lookup_filter_None. right. intros x _. cbn. rewrite G.
    discriminate.
  - destruct (st !! k) as [x|] eqn:L.
    + apply map_lookup_filter_Some. split; [exact L | exact G].
    + apply map_lookup_filter_None. left. exact L.
Qed.

(** *** MerginProjectItem.remove_local_project *)

(** remove_local_project, case by case. *)
Lemma remove_local_project_run env self h :
  remove_local_project env (self, h) =
    match path self with
    | Some (String c d') =>
        let d := String c d' in
        let asked := extend h [EvQuestion "Remove local project"
                                 remove_local_question] in
        match env_question env "Remove local project" remove_local_question
        with
        | No => (Returned tt, (self, asked))
        | Yes =>
            let gone (tree : gmap string NodeKind) (evs : list Event) :=
              (Returned tt,
               (removed self,
                {| settings :=
                     filter (fun kv =>
                       in_group
                         (normalized_key (local_path_key (project_name self)))
                         kv.1 = false) (settings h);
                   fs := tree; cursors := cursors h;
                   trace := trace asked ++ evs ++
                     [EvSettingsRemove (local_path_key (project_name self))]
                |})) in
            match fs h !! d with
            | Some Directory =>
                gone (filter (fun kv => in_group d kv.1 = false) (fs h))
                     [EvRmtree d]
            | Some RegularFile =>
                (Raised {| exn_class := OtherException;
                           exn_str := "Not a directory" |},
                 (self, extend asked [EvRmtree d]))
            | None => gone (fs h) []
            end
        end
    | _ => (Returned tt, (self, h))
    end.
Proof.
  unfold remove_local_project, self_path, self_project_name, question,
    os_path_exists, shutil_rmtree, settings_remove, set_path, setIcon,
    remove_local_question, removed.
  destruct self as [n ip st ic pn [[|c d']|]]; run_monad;
    [destruct h; reflexivity | | destruct h; reflexivity].
  destruct (env_question env _ _); cbn; [|reflexivity].
  destruct (fs h !! String c d') as [[|]|] eqn:F; cbn; rewrite ?F; cbn;
    unfold extend; cbn; rewrite <- ?app_assoc; reflexivity.
Qed.

(** *** MerginProjectItem.__init__ *)

Lemma MerginProjectItem_init_run name h :
  MerginProjectItem_init name h =
    let p := match settings h !! normalized_key (local_path_key name) with
             | Some (String c d') =>
                 if bool_decide (is_Some (fs h !! String c d'))
                 then Some (String c d') else None
             | other => other
             end in
    (Returned {| item_name := name; item_path := "/Mergin/" +:+ name;
                 item_state := NotPopulated;
                 icon := if truthy p then folder_icon else cloud_icon;
                 project_name := name; path := p |},
     extend h [EvSettingsValue (local_path_key name)]).
Proof.
  unfold MerginProjectItem_init, settings_value_or_None, os_path_exists.
  run_monad.
  destruct (settings h !! normalized_key (local_path_key name))
    as [[|c d']|]; cbn; try reflexivity.
  destruct (bool_decide (is_Some (fs h !! String c d'))); reflexivity.
Qed.

(** C2, as the claim states it, fails: a stored path that names a regular
    file does not point to an existing directory, yet the item keeps it. *)
Lemma init_regular_file_counterexample :
  settings file_host !! local_path_key "alpha" = Some "/data/alpha"
  /\ fs file_host !! "/data/alpha" <> Some Directory
  /\ exists it h',
       MerginProjectItem_init "alpha" file_host = (Returned it, h')
       /\ path it = Some "/data/alpha"
       /\ icon it = folder_icon
       /\ offered it = [SlotOpenProject; SlotRemoveLocalProject].
Proof.
  split; [reflexivity|]. split; [vm_compute; discriminate|].
  eexists _, _. split; [vm_compute; reflexivity|].
  repeat split.
Qed.

(** C2, amended. When the setting Mergin/localProjects/<name>/path is
    present and nothing exists at the stored path (os.path.exists is
    false), the constructed item is treated as having no local path: its
    icon is the cloud icon and its menu offers download only; its path
    field is None when the stored string is non-empty and stays the empty
    string when the stored string is empty.  The persisted setting itself
    is left as it is. *)
Theorem init_clears_missing_path (name : string) h (p : string) :
  settings h !! normalized_key (local_path_key name) = Some p ->
  fs h !! p = None ->
  exists it h',
    MerginProjectItem_init name h = (Returned it, h')
    /\ truthy (path it) = false
    /\ path it = match p with "" => Some "" | String _ _ => None end
    /\ icon it = cloud_icon
    /\ offered it = [SlotDownload]
    /\ settings h' = settings h.
Proof.
  intros Hs Hf. rewrite MerginProjectItem_init_run, Hs.
  destruct p as [|c d']; cbn.
  - eexists _, _. split; [reflexivity|]. cbn. repeat split.
  - rewrite Hf. cbn. eexists _, _. split; [reflexivity|]. cbn. repeat split.
Qed.

Lemma init_clears_missing_path_witness :
  exists it h',
    MerginProjectItem_init "alpha" stale_host = (Returned it, h')
    /\ truthy (path it) = false
    /\ path it = None
    /\ icon it = cloud_icon
    /\ offered it = [SlotDownload]
    /\ settings h' = settings stale_host.
Proof.
  apply (init_clears_missing_path "alpha" stale_host "/data/alpha").
  - reflexivity.
  - reflexivity.
Defined.

(** *** Icon and persisted path follow the local path *)

(** C5, as the claim states it, fails for construction: built on a host
    whose stored path no longer exists, the item has no local path (path
    None, cloud icon) while the persisted path is still in the store. *)
Lemma init_stale_setting_counterexample :
  exists it h',
    MerginProjectItem_init "alpha" stale_host = (Returned it, h')
    /\ path it = None
    /\ icon it = cloud_icon
    /\ settings h' !! normalized_key (local_path_key "alpha")
       = Some "/data/alpha".
Proof.
  eexists _, _. split; [vm_compute; reflexivity|].
  split; [reflexivity|]. split; [reflexivity|]. vm_compute. reflexivity.
Qed.

(** C5, amended. Construction never writes the store; the item it builds
    has the folder icon exactly when it has a local path, and its path is
    read off the store: None when nothing is stored, the stored string
    when that is empty or something exists there (the setting then holds
    the item's path), and None beside a stale stored path, which stays in
    the store.  After a successful download the setting
    Mergin/localProjects/<name>/path holds the target directory, which is
    the item's path, and the icon is the folder icon.  After a completed
    remove-local the setting is gone, the path is None and the icon is the
    cloud icon. *)
Theorem icon_and_setting_follow_path env (self : MerginProjectItem) h :
  (forall name, exists it h',
      MerginProjectItem_init name h = (Returned it, h')
      /\ settings h' = settings h
      /\ icon it = (if truthy (path it) then folder_icon else cloud_icon)
      /\ (settings h !! normalized_key (local_path_key name) = None ->
          path it = None)
      /\ (forall p,
          settings h !! normalized_key (local_path_key name) = Some p ->
          (p = "" \/ is_Some (fs h !! p) -> path it = Some p)
          /\ (p <> "" -> fs h !! p = None -> path it = None))
      /\ (truthy (path it) = true ->
          settings h' !! normalized_key (local_path_key name) = path it))
  /\ (forall fs',
        truthy (Some (env_getExistingDirectory env)) = true ->
        env_download_project env (configured_client (settings h))
          (project_name self) (download_target env self) (fs h)
          = (Returned tt, fs') ->
        exists self' h',
          download env (self, h) = (Returned tt, (self', h'))
          /\ settings h' !! normalized_key (local_path_key (project_name self))
              = Some (download_target env self)
          /\ path self' = Some (download_target env self)
          /\ icon self' = folder_icon)
  /\ (forall d,
        path self = Some d -> truthy (path self) = true ->
        env_question env "Remove local project" remove_local_question = Yes ->
        fs h !! d <> Some RegularFile ->
        exists self' h',
          remove_local_project env (self, h) = (Returned tt, (self', h'))
          /\ settings h' !! normalized_key (local_path_key (project_name self))
              = None
          /\ path self' = None
          /\ icon self' = cloud_icon).
Proof.
  split; [|split].
  - intros name. rewrite MerginProjectItem_init_run. cbn zeta.
    eexists _, _. split; [reflexivity|]. cbn [settings extend path icon].
    split; [reflexivity|]. split; [reflexivity|].
    destruct (settings h !! normalized_key (local_path_key name))
      as [[|c d']|] eqn:S.
    + split; [discriminate|]. split; [|discriminate].
      intros p Hp. injection Hp as <-.
      split; [reflexivity | intros N; contradiction].
    + split; [discriminate|]. split.
      * intros p Hp. injection Hp as <-. split.
        -- intros [N|Hs]; [discriminate N|].
           rewrite (bool_decide_eq_true_2 _ Hs). reflexivity.
        -- intros _ Hn. rewrite Hn. reflexivity.
      * destruct (bool_decide (is_Some (fs h !! String c d')));
          [reflexivity | discriminate].
    + split; [reflexivity|]. split; [discriminate | discriminate].
  - intros fs' Hd Hf.
    destruct (download_run_succeeded env self h fs' Hd Hf) as (evs & -> & _).
    eexists _, _. split; [reflexivity|]. cbn.
    split; [apply lookup_insert_eq | split; reflexivity].
  - intros d Hp Ht Hq Hf. rewrite remove_local_project_run, Hp.
    rewrite Hp in Ht. destruct d as [|c d']; [discriminate|].
    cbn. rewrite Hq.
    destruct (fs h !! String c d') as [[|]|]; try congruence;
      (eexists _, _; split; [reflexivity|]; cbn;
       split; [rewrite lookup_removed, in_group_refl; reflexivity
              | split; reflexivity]).
Qed.

Lemma icon_and_setting_follow_path_witness :
  (exists it h',
      MerginProjectItem_init "alpha" alpha_host = (Returned it, h')
      /\ path it = Some "/data/alpha"
      /\ icon it = folder_icon)
  /\ (exists self' h',
        download good_env (local_item "alpha" "/data/alpha", alpha_host)
          = (Returned tt, (self', h'))
        /\ settings h' !! normalized_key (local_path_key "alpha")
           = Some "/home/user/alpha"
        /\ path self' = Some "/home/user/alpha"
        /\ icon self' = folder_icon)
  /\ (exists self' h',
        remove_local_project good_env
          (local_item "alpha" "/data/alpha", alpha_host)
          = (Returned tt, (self', h'))
        /\ settings h' !! normalized_key (local_path_key "alpha") = None
        /\ path self' = None
        /\ icon self' = cloud_icon).
Proof.
  destruct (icon_and_setting_follow_path good_env
              (local_item "alpha" "/data/alpha") alpha_host)
    as (Hinit & Hdownload & Hremove).
  split; [|split].
  - destruct (Hinit "alpha") as (it & h' & Hrun & _ & Hicon & _ & Hsome & _).
    exists it, h'. split; [exact Hrun|].
    destruct (Hsome "/data/alpha" eq_refl) as (Hkeep & _).
    assert (Hpath : path it = Some "/data/alpha").
    { apply Hkeep. right. exists Directory. reflexivity. }
    split; [exact Hpath|]. rewrite Hicon, Hpath. reflexivity.
  - apply (Hdownload (<["/home/user/alpha" := Directory]> (fs alpha_host)));
      reflexivity.
  - apply (Hremove "/data/alpha"); try reflexivity.
    vm_compute. discriminate.
Defined.

(** *** MerginRootItem.createChildren *)

Lemma extend_extend h evs evs' :
  extend (extend h evs) evs' = extend h (evs ++ evs').
Proof. unfold extend. cbn. rewrite <- app_assoc. reflexivity. Qed.

(** The loop builds one populated project item per listed project, in
    order, reading one setting per project. *)
Lemma project_items_run projects : forall h,
  exists items evs,
    project_items projects h = (Returned items, extend h evs)
    /\ map child_project_name items
       = map (fun p => Some (proj_name p)) projects
    /\ settings_keys evs
       = map (fun p => local_path_key (proj_name p)) projects.
Proof.
  induction projects as [|project rest IH]; intros h.
  - exists [], []. cbn. unfold ret, extend. rewrite app_nil_r.
    destruct h; auto.
  - cbn [project_items]. unfold bind at 1.
    rewrite MerginProjectItem_init_run. cbn zeta.
    destruct (IH (extend h [EvSettingsValue
                              (local_path_key (proj_name project))]))
      as (items & evs & Hrun & Hnames & Hkeys).
    unfold bind at 1. rewrite Hrun. unfold ret.
    eexists (_ :: items), (_ :: evs). rewrite extend_extend. cbn.
    split; [reflexivity|].
    split; [rewrite Hnames | unfold settings_keys in *; rewrite Hkeys];
      reflexivity.
Qed.

Lemma createChildren_run env h :
  let c := configured_client (settings h) in
  let asked := connection_reads ++
               [EvAuthOk (mc_url c) (mc_username c) (mc_password c)] in
  let listed := asked ++ [EvProjectsList c ["valid_qgis"]] in
  createChildren env h =
    if env_auth_ok env (mc_url c) (mc_username c) (mc_password c) then
      match env_projects_list env c ["valid_qgis"] with
      | Returned projects => project_items projects (extend h listed)
      | Raised e =>
          (Returned [if except_URLError (exn_class e) then failed_node
                     else QgsErrorItem ("Error: " +:+ exn_str e)
                                       "/Mergin/error"],
           extend h listed)
      end
    else (Returned [failed_node], extend h asked).
Proof.
  unfold createChildren, settings_value, auth_ok, projects_list, try_except,
    configured_client, failed_node.
  run_monad.
  destruct (env_auth_ok env _ _ _); cbn;
    [|unfold extend; cbn; rewrite <- !app_assoc; reflexivity].
  match goal with
  | |- context [env_projects_list env ?c ?f] =>
      destruct (env_projects_list env c f) as [projects|e] eqn:L
  end; cbn.
  - unfold extend; cbn; rewrite <- !app_assoc; reflexivity.
  - destruct (exn_class e); cbn; unfold extend; cbn; rewrite <- !app_assoc;
      reflexivity.
Qed.

(** C1, as the claim states it, fails: an authentication failure and a
    network failure during listing are shown as the same error node. *)
Lemma createChildren_same_node_counterexample :
  (createChildren (failing_env false (Returned []) (Returned tt))
     empty_host).1 = Returned [failed_node]
  /\ (createChildren (failing_env true (Raised unreachable) (Returned tt))
        empty_host).1 = Returned [failed_node].
Proof. split; vm_compute; reflexivity. Qed.

(** C1, amended. Every expansion of the root item returns: one project
    item per listed project, in the listing's order, when authentication
    and listing succeed; otherwise exactly one error node.  Authentication
    failure and URLError during listing give the same node ("Failed to get
    projects from server"); any other exception gives a different node,
    "Error: " followed by the exception's text. *)
Theorem createChildren_children env h :
  let c := configured_client (settings h) in
  let auth := env_auth_ok env (mc_url c) (mc_username c) (mc_password c) in
  let listing := env_projects_list env c ["valid_qgis"] in
  (auth = false -> (createChildren env h).1 = Returned [failed_node])
  /\ (auth = true -> forall e, listing = Raised e ->
      exn_class e = URLError ->
      (createChildren env h).1 = Returned [failed_node])
  /\ (auth = true -> forall e, listing = Raised e ->
      exn_class e <> URLError ->
      (createChildren env h).1
        = Returned [QgsErrorItem ("Error: " +:+ exn_str e) "/Mergin/error"]
      /\ QgsErrorItem ("Error: " +:+ exn_str e) "/Mergin/error" <> failed_node)
  /\ (auth = true -> forall projects, listing = Returned projects ->
      exists items,
        (createChildren env h).1 = Returned items
        /\ map child_project_name items
           = map (fun p => Some (proj_name p)) projects
        /\ length items = length projects).
Proof.
  intros c auth listing. rewrite createChildren_run.
  fold c. fold auth. fold listing. cbn zeta.
  split; [|split; [|split]].
  - intros ->. reflexivity.
  - intros -> e -> Hc. cbn. rewrite Hc. reflexivity.
  - intros -> e -> Hc. cbn.
    destruct (exn_class e); try congruence; cbn;
      (split; [reflexivity | discriminate]).
  - intros -> projects ->.
    destruct (project_items_run projects
                (extend h ((connection_reads ++
                   [EvAuthOk (mc_url c) (mc_username c) (mc_password c)]) ++
                   [EvProjectsList c ["valid_qgis"]])))
      as (items & evs & Hrun & Hnames & _).
    exists items. rewrite Hrun. split; [reflexivity|].
    split; [exact Hnames|].
    rewrite <- (length_map child_project_name items), Hnames, length_map.
    reflexivity.
Qed.

Lemma createChildren_children_witness :
  exists items,
    (createChildren good_env empty_host).1 = Returned items
    /\ map child_project_name items = [Some "alpha"; Some "beta"]
    /\ length items = 2.
Proof.
  destruct (createChildren_children good_env empty_host)
    as (_ & _ & _ & Hok).
  apply (Hok eq_refl [ {| proj_name := "alpha" |}; {| proj_name := "beta" |} ]).
  reflexivity.
Defined.

(** *** Connection settings *)

(** C10. Root expansion and download build their client from the same
    three settings with the same defaults: an absent Mergin/URL gives
    https://public.cloudmergin.com, an absent Mergin/username or
    Mergin/password gives the empty string; the credentials check and the
    listing call of createChildren and the download_project call of
    download are made with exactly that client. *)
Theorem connection_defaults env (self : MerginProjectItem) h :
  let c := configured_client (settings h) in
  (settings h !! "Mergin/URL" = None ->
   mc_url c = "https://public.cloudmergin.com")
  /\ (settings h !! "Mergin/username" = None -> mc_username c = "")
  /\ (settings h !! "Mergin/password" = None -> mc_password c = "")
  /\ (exists o h' evs,
        createChildren env h = (o, h')
        /\ trace h' = trace h ++ connection_reads ++
             EvAuthOk (mc_url c) (mc_username c) (mc_password c) :: evs
        /\ (env_auth_ok env (mc_url c) (mc_username c) (mc_password c) = true
            -> exists evs', evs = EvProjectsList c ["valid_qgis"] :: evs'))
  /\ (truthy (Some (env_getExistingDirectory env)) = true ->
      exists o s' evs,
        download env (self, h) = (o, s')
        /\ trace s'.2 = trace h ++ EvGetExistingDirectory :: connection_reads
             ++ EvDownloadProject c (project_name self)
                  (download_target env self) :: evs).
Proof.
  intros c. split; [|split; [|split; [|split]]].
  - intros H. unfold c, configured_client. cbn. rewrite H. reflexivity.
  - intros H. unfold c, configured_client. cbn. rewrite H. reflexivity.
  - intros H. unfold c, configured_client. cbn. rewrite H. reflexivity.
  - rewrite createChildren_run. fold c. cbn zeta.
    destruct (env_auth_ok env (mc_url c) (mc_username c) (mc_password c)).
    + destruct (env_projects_list env c ["valid_qgis"]) as [projects|e].
      * destruct (project_items_run projects
                    (extend h ((connection_reads ++
                       [EvAuthOk (mc_url c) (mc_username c) (mc_password c)])
                       ++ [EvProjectsList c ["valid_qgis"]])))
          as (items & evs & Hrun & _).
        rewrite Hrun. eexists _, _, _. split; [reflexivity|].
        cbn. rewrite <- ?app_assoc. cbn.
        split; [reflexivity|]. intros _. eexists. reflexivity.
      * eexists _, _, _. split; [reflexivity|].
        cbn. split; [reflexivity|]. intros _. eexists. reflexivity.
    + eexists _, _, []. split; [reflexivity|].
      cbn. split; [reflexivity|]. discriminate.
  - intros Hd.
    destruct (env_download_project env c (project_name self)
                (download_target env self) (fs h)) as [[[]|e] fs'] eqn:Hf.
    + destruct (download_run_succeeded env self h fs' Hd Hf)
        as (evs & -> & _).
      eexists _, _, _. split; reflexivity.
    + rewrite (download_run_raised env self h e fs' Hd Hf). cbn zeta.
      destruct (except_URLError_ValueError (exn_class e));
        eexists _, _, _; (split; [reflexivity|]); cbn;
        rewrite <- ?app_assoc; reflexivity.
Qed.

Lemma connection_defaults_witness :
  mc_url (configured_client (settings empty_host))
    = "https://public.cloudmergin.com"
  /\ mc_username (configured_client (settings empty_host)) = ""
  /\ mc_password (configured_client (settings empty_host)) = ""
  /\ exists o s' evs,
       download good_env (remote_item "alpha", empty_host) = (o, s')
       /\ trace s'.2 = trace empty_host ++ EvGetExistingDirectory ::
            connection_reads ++
            EvDownloadProject
              {| mc_url := "https://public.cloudmergin.com";
                 mc_username := ""; mc_password := "" |}
              "alpha" "/home/user/alpha" :: evs.
Proof.
  destruct (connection_defaults good_env (remote_item "alpha") empty_host)
    as (Hurl & Huser & Hpass & _ & Hdownload).
  split; [apply Hurl; reflexivity|].
  split; [apply Huser; reflexivity|].
  split; [apply Hpass; reflexivity|].
  apply Hdownload. reflexivity.
Defined.

(** *** Settings footprint *)

(** C7, as the claim states it, fails: QSettings.remove also drops the
    sub-settings of the key it is given, so removing the local copy of
    project a removes the stored path of project a/path, a key that is not
    among the four keys of the operation. *)
Lemma remove_local_project_subkey_counterexample :
  ~ In (local_path_key "a/path") (connection_keys ++ [local_path_key "a"])
  /\ settings nested_host !! local_path_key "a/path" = Some "/d/x"
  /\ exists self' h',
       remove_local_project good_env (local_item "a" "/d/a", nested_host)
         = (Returned tt, (self', h'))
       /\ settings h' !! local_path_key "a/path" = None.
Proof.
  split; [cbn; intros [H|[H|[H|[H|[]]]]]; discriminate H|].
  split; [vm_compute; reflexivity|].
  eexists _, _. split; vm_compute; reflexivity.
Qed.

(** C7, amended. The only keys an operation hands to the settings store
    are Mergin/URL, Mergin/username, Mergin/password and
    Mergin/localProjects/<name>/path for the project concerned
    (construction, download and remove-local: the item's own name; root
    expansion: the names of the listed projects).  The store normalises
    the key it is handed; every stored setting other than the one that
    Mergin/localProjects/<name>/path names after normalisation, and other
    than the sub-settings of that one, keeps its value (only download and
    remove-local change the store at all). *)
Theorem settings_footprint env (self : MerginProjectItem) h :
  let key := local_path_key (project_name self) in
  (forall name, exists it h' evs,
      MerginProjectItem_init name h = (Returned it, h')
      /\ trace h' = trace h ++ evs
      /\ settings_keys evs = [local_path_key name]
      /\ settings h' = settings h)
  /\ (exists o self' h' evs,
        download env (self, h) = (o, (self', h'))
        /\ trace h' = trace h ++ evs
        /\ (forall k, In k (settings_keys evs) ->
            In k (connection_keys ++ [key]))
        /\ (forall k, k <> normalized_key key ->
            settings h' !! k = settings h !! k))
  /\ (exists o self' h' evs,
        remove_local_project env (self, h) = (o, (self', h'))
        /\ trace h' = trace h ++ evs
        /\ (forall k, In k (settings_keys evs) -> k = key)
        /\ (forall k, in_group (normalized_key key) k = false ->
            settings h' !! k = settings h !! k))
  /\ (exists h' evs,
        open_project env (self, h) = (Returned tt, (self, h'))
        /\ trace h' = trace h ++ evs
        /\ settings_keys evs = []
        /\ settings h' = settings h)
  /\ (exists o h' evs,
        createChildren env h = (o, h')
        /\ trace h' = trace h ++ evs
        /\ (forall k, In k (settings_keys evs) ->
            In k connection_keys
            \/ exists projects p,
                 env_projects_list env (configured_client (settings h))
                   ["valid_qgis"] = Returned projects
                 /\ In p projects /\ k = local_path_key (proj_name p))
        /\ settings h' = settings h).
Proof.
  intros key. split; [|split; [|split; [|split]]].
  - intros name. rewrite MerginProjectItem_init_run. cbn zeta.
    eexists _, _, _. repeat split.
  - destruct (truthy (Some (env_getExistingDirectory env))) eqn:Hd.
    + destruct (env_download_project env (configured_client (settings h))
                  (project_name self) (download_target env self) (fs h))
        as [[[]|e] fs'] eqn:Hf.
      * destruct (download_run_succeeded env self h fs' Hd Hf)
          as (evs & -> & Hkeys & _).
        eexists _, _, _, _. split; [reflexivity|]. cbn.
        split; [reflexivity|]. split.
        -- unfold settings_keys in *. cbn. rewrite Hkeys. fold key. cbn.
           intros k H. decompose [or] H; subst; tauto.
        -- intros k Hk. apply lookup_insert_ne. intros E. apply Hk.
           symmetry. exact E.
      * rewrite (download_run_raised env self h e fs' Hd Hf). cbn zeta.
        destruct (except_URLError_ValueError (exn_class e));
          eexists _, _, _, _; (split; [reflexivity|]); cbn;
          rewrite <- ?app_assoc; (split; [reflexivity|]); cbn;
          (split; [intros k H; decompose [or] H; subst; tauto | reflexivity]).
    + rewrite (download_run_cancelled env self h Hd).
      eexists _, _, _, _. split; [reflexivity|]. cbn.
      split; [reflexivity|]. cbn. split; [intros k []|reflexivity].
  - rewrite remove_local_project_run.
    destruct (path self) as [[|c d']|].
    + eexists _, _, _, []. rewrite app_nil_r. repeat split. intros k [].
    + cbn zeta.
      destruct (env_question env "Remove local project" remove_local_question).
      * destruct (fs h !! String c d') as [[|]|];
          eexists _, _, _, _; (split; [reflexivity|]); cbn;
          rewrite <- ?app_assoc; (split; [reflexivity|]); cbn;
          (split; [intros k H; decompose [or] H; subst; tauto|]);
          intros k Hk; rewrite ?lookup_removed; fold key; rewrite ?Hk;
          reflexivity.
      * eexists _, _, _, _. split; [reflexivity|]. cbn.
        split; [reflexivity|]. cbn. split; [intros k []|reflexivity].
    + eexists _, _, _, []. rewrite app_nil_r. repeat split. intros k [].
  - destruct (open_project_run env self h) as (evs & Hrun & Hevs).
    eexists _, evs. split; [exact Hrun|]. cbn. repeat split.
    subst evs. destruct (path self) as [[|c d']|]; try reflexivity.
    cbn zeta.
    destruct (env_find_qgis_files env (fs h) (String c d')) as [|f [|g l]];
      reflexivity.
  - rewrite createChildren_run. cbn zeta.
    set (c := configured_client (settings h)).
    destruct (env_auth_ok env (mc_url c) (mc_username c) (mc_password c)).
    + destruct (env_projects_list env c ["valid_qgis"]) as [projects|e] eqn:L.
      * destruct (project_items_run projects
                    (extend h ((connection_reads ++
                       [EvAuthOk (mc_url c) (mc_username c) (mc_password c)])
                       ++ [EvProjectsList c ["valid_qgis"]])))
          as (items & evs & Hrun & _ & Hkeys).
        rewrite Hrun. eexists _, _, _. split; [reflexivity|]. cbn.
        rewrite <- ?app_assoc. split; [reflexivity|]. split; [|reflexivity].
        unfold settings_keys in *. cbn. rewrite Hkeys.
        intros k [<-|[<-|[<-|Hk]]]; [left; cbn; tauto ..|].
        right. apply in_map_iff in Hk as (p & <- & Hp).
        exists projects, p. auto.
      * eexists _, _, _. split; [reflexivity|]. cbn.
        split; [reflexivity|]. split; [|reflexivity].
        cbn. intros k H. left. exact H.
    + eexists _, _, _. split; [reflexivity|]. cbn.
      split; [reflexivity|]. split; [|reflexivity].
      cbn. intros k H. left. exact H.
Qed.

Lemma settings_footprint_witness :
  exists o self' h' evs,
    remove_local_project good_env (local_item "a" "/d/a", nested_host)
      = (o, (self', h'))
    /\ trace h' = trace nested_host ++ evs
    /\ (forall k, In k (settings_keys evs) -> k = local_path_key "a")
    /\ settings h' !! "Mergin/URL" = settings nested_host !! "Mergin/URL".
Proof.
  destruct (settings_footprint good_env (local_item "a" "/d/a") nested_host)
    as (_ & _ & (o & self' & h' & evs & Hrun & Htrace & Hkeys & Hframe) & _).
  exists o, self', h', evs.
  split; [exact Hrun|]. split; [exact Htrace|]. split; [exact Hkeys|].
  apply Hframe. reflexivity.
Defined.

(** ** Further properties of the methods *)

(** *** Helpers *)

Lemma os_path_join_truthy a b :
  truthy (Some a) = true -> truthy (Some (os_path_join a b)) = true.
Proof.
  intros Ha. unfold os_path_join.
  destruct (String.prefix "/" b) eqn:P.
  - destruct b; [discriminate P | reflexivity].
  - destruct a as [|c a']; [discriminate Ha|].
    destruct (truthy (Some (String c a')) && negb (ends_with_sep (String c a')));
      reflexivity.
Qed.





(** A download whose client call returns, with every call it makes. *)
Lemma download_run_succeeded_exact env self h fs' :
  truthy (Some (env_getExistingDirectory env)) = true ->
  env_download_project env (configured_client (settings h))
    (project_name self) (download_target env self) (fs h)
    = (Returned tt, fs') ->
  download env (self, h) =
    (Returned tt,
     (downloaded self (download_target env self),
      {| settings := <[normalized_key (local_path_key (project_name self))
                        := download_target env self]> (settings h);
         fs := fs'; cursors := cursors h;
         trace := trace h ++ EvGetExistingDirectory :: connection_reads ++
           [EvDownloadProject (configured_client (settings h))
              (project_name self) (download_target env self);
            EvSettingsSetValue (local_path_key (project_name self))
              (download_target env self);
            EvQuestion "Project download"
              (downloaded_question (project_name self))] ++
           match env_question env "Project download"
                   (downloaded_question (project_name self)) with
           | No => []
           | Yes =>
               let files := env_find_qgis_files env fs'
                              (download_target env self) in
               EvFindQgisFiles (download_target env self) ::
               match files with
               | [f] => [EvProjectRead f]
               | _ => [EvWarning "Load QGIS project"
                         ("Plugin can only load project with single QGIS "
                          +:+ "file but " +:+ pretty (length files)
                          +:+ " found.")]
               end
           end |})).
Proof.
  intros Hd Hf.
  pose proof (os_path_join_truthy (env_getExistingDirectory env)
                (project_name self) Hd) as Ht.
  unfold download_target, configured_client in *.
  unfold download, getExistingDirectory, settings_value, self_project_name,
    setOverrideCursor, restoreOverrideCursor, question, try_except,
    download_project, settings_setValue, set_path, setIcon.
  run_monad.
  destruct (env_getExistingDirectory env) as [|c d]; [discriminate|].
  cbn in *. answer Hf. cbn. unfold downloaded_question, downloaded.
  destruct (env_question env _ _) eqn:Q.
  - match goal with
    | |- context [open_project env (?it, ?hh)] =>
        destruct (open_project_run env it hh) as (evs & Hrun & Hevs);
        rewrite Hrun
    end.
    cbn in Hevs. subst evs.
    destruct (os_path_join (String c d) (project_name self)) as [|c' t];
      [discriminate Ht|].
    cbn. rewrite <- !app_assoc. reflexivity.
  - cbn. rewrite <- !app_assoc. reflexivity.
Qed.

(** *** download: every way it can end *)

(** X1. download calls the client's download_project exactly once when the
    user picked a directory, whatever the call's outcome, and not at all
    when the directory dialog was cancelled; a cancelled download reads no
    setting and leaves the item, the settings, the file system and the
    cursor as they were. *)
Theorem download_calls_client_once env (self : MerginProjectItem) h :
  exists o self' h' evs,
    download env (self, h) = (o, (self', h'))
    /\ trace h' = trace h ++ evs
    /\ download_calls evs =
         (if truthy (Some (env_getExistingDirectory env))
          then [(project_name self, download_target env self)] else [])
    /\ (truthy (Some (env_getExistingDirectory env)) = false ->
        o = Returned tt /\ evs = [EvGetExistingDirectory] /\ self' = self
        /\ settings h' = settings h /\ fs h' = fs h
        /\ cursors h' = cursors h).
Proof.
  destruct (truthy (Some (env_getExistingDirectory env))) eqn:Hd.
  - destruct (env_download_project env (configured_client (settings h))
                (project_name self) (download_target env self) (fs h))
      as [[[]|e] fs'] eqn:Hf.
    + rewrite (download_run_succeeded_exact env self h fs' Hd Hf).
      eexists _, _, _, _. split; [reflexivity|]. cbn.
      split; [reflexivity|]. split; [|discriminate].
      destruct (env_question env _ _); [|reflexivity].
      cbn. destruct (env_find_qgis_files env fs' _) as [|f [|g l]];
        reflexivity.
    + rewrite (download_run_raised env self h e fs' Hd Hf). cbn zeta.
      destruct (except_URLError_ValueError (exn_class e));
        eexists _, _, _, _; (split; [reflexivity|]); cbn;
        rewrite <- ?app_assoc; (split; [reflexivity|]);
        (split; [reflexivity | discriminate]).
  - rewrite (download_run_cancelled env self h Hd).
    eexists _, _, _, _. split; [reflexivity|]. cbn.
    split; [reflexivity|]. repeat split.
Qed.

Lemma download_calls_client_once_witness :
  exists o self' h' evs,
    download declining_env (remote_item "alpha", busy_host) = (o, (self', h'))
    /\ o = Returned tt /\ evs = [EvGetExistingDirectory]
    /\ self' = remote_item "alpha"
    /\ settings h' = settings busy_host /\ fs h' = fs busy_host
    /\ cursors h' = cursors busy_host.
Proof.
  destruct (download_calls_client_once declining_env (remote_item "alpha")
              busy_host)
    as (o & self' & h' & evs & Hrun & _ & _ & Hcancel).
  exists o, self', h', evs. split; [exact Hrun|].
  apply Hcancel. reflexivity.
Defined.

(** X2. A download whose client call returns ends normally with the
    override-cursor stack as it was before, shows no critical dialog, asks
    exactly one question (whether to open the project), leaves the file
    system as the client left it, and the item's menu now offers open and
    remove-local. *)
Theorem download_success_effects env (self : MerginProjectItem) h fs' :
  truthy (Some (env_getExistingDirectory env)) = true ->
  env_download_project env (configured_client (settings h))
    (project_name self) (download_target env self) (fs h)
    = (Returned tt, fs') ->
  exists self' h' evs,
    download env (self, h) = (Returned tt, (self', h'))
    /\ trace h' = trace h ++ evs
    /\ cursors h' = cursors h
    /\ fs h' = fs'
    /\ critical_dialogs evs = []
    /\ questions evs
       = [("Project download", downloaded_question (project_name self))]
    /\ offered self' = [SlotOpenProject; SlotRemoveLocalProject].
Proof.
  intros Hd Hf.
  rewrite (download_run_succeeded_exact env self h fs' Hd Hf).
  eexists _, _, _. split; [reflexivity|]. cbn.
  split; [reflexivity|]. split; [reflexivity|]. split; [reflexivity|].
  split; [|split].
  - destruct (env_question env _ _); [|reflexivity].
    cbn. destruct (env_find_qgis_files env fs' _) as [|f [|g l]];
      reflexivity.
  - destruct (env_question env _ _); [|reflexivity].
    cbn. destruct (env_find_qgis_files env fs' _) as [|f [|g l]];
      reflexivity.
  - pose proof (os_path_join_truthy _ (project_name self) Hd) as Ht.
    unfold download_target.
    destruct (os_path_join (env_getExistingDirectory env) (project_name self));
      [discriminate Ht | reflexivity].
Qed.

Lemma download_success_effects_witness :
  exists self' h' evs,
    download good_env (remote_item "alpha", busy_host)
      = (Returned tt, (self', h'))
    /\ trace h' = trace busy_host ++ evs
    /\ cursors h' = [WaitCursor]
    /\ fs h' = {[ "/home/user/alpha" := Directory ]}
    /\ critical_dialogs evs = []
    /\ questions evs = [("Project download", downloaded_question "alpha")]
    /\ offered self' = [SlotOpenProject; SlotRemoveLocalProject].
Proof.
  apply (download_success_effects good_env (remote_item "alpha") busy_host
           {[ "/home/user/alpha" := Directory ]}); reflexivity.
Defined.

(** X3. After a successful download the project is opened only on request:
    a project file is handed to the host exactly when the user answers Yes
    and find_qgis_files finds exactly one file in the target directory (as
    the client left it); a warning is shown exactly when the user answers
    Yes and the number of files found is not one; on No neither happens. *)
Theorem download_then_open env (self : MerginProjectItem) h fs' :
  truthy (Some (env_getExistingDirectory env)) = true ->
  env_download_project env (configured_client (settings h))
    (project_name self) (download_target env self) (fs h)
    = (Returned tt, fs') ->
  let reply := env_question env "Project download"
                 (downloaded_question (project_name self)) in
  let files := env_find_qgis_files env fs' (download_target env self) in
  exists self' h' evs,
    download env (self, h) = (Returned tt, (self', h'))
    /\ trace h' = trace h ++ evs
    /\ loaded_files evs
       = (if reply is Yes then if Nat.eqb (length files) 1 then files else []
          else [])
    /\ length (warnings evs)
       = (if reply is Yes then if Nat.eqb (length files) 1 then 0 else 1
          else 0).
Proof.
  intros Hd Hf reply files.
  rewrite (download_run_succeeded_exact env self h fs' Hd Hf).
  eexists _, _, _. split; [reflexivity|]. cbn.
  split; [reflexivity|]. fold reply. fold files.
  destruct reply; [|split; reflexivity].
  cbn. destruct files as [|f [|g l]]; split; reflexivity.
Qed.

Lemma download_then_open_witness :
  exists self' h' evs,
    download good_env (remote_item "alpha", empty_host)
      = (Returned tt, (self', h'))
    /\ trace h' = trace empty_host ++ evs
    /\ loaded_files evs = ["/home/user/alpha/project.qgs"]
    /\ length (warnings evs) = 0.
Proof.
  apply (download_then_open good_env (remote_item "alpha") empty_host
           {[ "/home/user/alpha" := Directory ]}); reflexivity.
Defined.

(** X4. The wait cursor is taken back exactly when download ends normally.
    Whenever download returns, the override-cursor stack is what it was;
    whenever an exception leaves download, it is the client's exception, of
    a class other than URLError and ValueError, the wait cursor is still on
    top of the stack, no critical dialog was shown, and the item and the
    settings are unchanged. *)
Theorem download_cursor_balance env (self : MerginProjectItem) h :
  exists o self' h' evs,
    download env (self, h) = (o, (self', h'))
    /\ trace h' = trace h ++ evs
    /\ match o with
       | Returned _ => cursors h' = cursors h
       | Raised e =>
           except_URLError_ValueError (exn_class e) = false
           /\ (exists fs',
                env_download_project env (configured_client (settings h))
                  (project_name self) (download_target env self) (fs h)
                = (Raised e, fs'))
           /\ cursors h' = WaitCursor :: cursors h
           /\ critical_dialogs evs = []
           /\ self' = self
           /\ settings h' = settings h
       end.
Proof.
  destruct (truthy (Some (env_getExistingDirectory env))) eqn:Hd.
  - destruct (env_download_project env (configured_client (settings h))
                (project_name self) (download_target env self) (fs h))
      as [[[]|e] fs'] eqn:Hf.
    + rewrite (download_run_succeeded_exact env self h fs' Hd Hf).
      eexists _, _, _, _. split; [reflexivity|]. cbn.
      split; reflexivity.
    + rewrite (download_run_raised env self h e fs' Hd Hf). cbn zeta.
      destruct (except_URLError_ValueError (exn_class e)) eqn:Hc;
        eexists _, _, _, _; (split; [reflexivity|]); cbn;
        rewrite <- ?app_assoc; (split; [reflexivity|]).
      * reflexivity.
      * split; [exact Hc|]. split; [exists fs'; reflexivity|].
        repeat split.
  - rewrite (download_run_cancelled env self h Hd).
    eexists _, _, _, _. split; [reflexivity|]. cbn. split; reflexivity.
Qed.

(** *** remove_local_project: confirmation and the file system *)

Lemma lookup_pruned {V} dir (m : gmap string V) k :
  filter (fun kv => in_group dir kv.1 = false) m !! k =
    if in_group dir k then None else m !! k.
Proof.
  destruct (in_group dir k) eqn:G.
  - apply map_lookup_filter_None. right. intros x _. cbn. rewrite G.
    discriminate.
  - destruct (m !! k) as [x|] eqn:L.
    + apply map_lookup_filter_Some. split; [exact L | exact G].
    + apply map_lookup_filter_None. left. exact L.
Qed.

(** X5. remove_local_project deletes nothing without confirmation: when
    the item has no local path, or the user answers No, it returns with the
    item, the settings and the file system unchanged and without calling
    rmtree or the settings store; without a local path it does not even ask. *)
Theorem remove_local_project_needs_confirmation env
    (self : MerginProjectItem) h :
  truthy (path self) = false
  \/ env_question env "Remove local project" remove_local_question = No ->
  exists h' evs,
    remove_local_project env (self, h) = (Returned tt, (self, h'))
    /\ trace h' = trace h ++ evs
    /\ settings h' = settings h
    /\ fs h' = fs h
    /\ rmtree_calls evs = []
    /\ settings_keys evs = []
    /\ (truthy (path self) = false -> evs = []).
Proof.
  intros Hno. rewrite remove_local_project_run.
  destruct (path self) as [[|c d']|]; cbn zeta.
  - exists h, []. rewrite app_nil_r. repeat split.
  - destruct Hno as [Hp|Hq]; [discriminate Hp|]. rewrite Hq.
    eexists _, _. split; [reflexivity|]. cbn. repeat split. discriminate.
  - exists h, []. rewrite app_nil_r. repeat split.
Qed.

Lemma remove_local_project_needs_confirmation_witness :
  exists h' evs,
    remove_local_project declining_env
      (local_item "alpha" "/data/alpha", alpha_host)
      = (Returned tt, (local_item "alpha" "/data/alpha", h'))
    /\ trace h' = trace alpha_host ++ evs
    /\ settings h' = settings alpha_host
    /\ fs h' = fs alpha_host
    /\ rmtree_calls evs = []
    /\ settings_keys evs = []
    /\ (truthy (Some "/data/alpha") = false -> evs = []).
Proof.
  apply (remove_local_project_needs_confirmation declining_env
           (local_item "alpha" "/data/alpha") alpha_host).
  right. reflexivity.
Defined.

(** X6. remove_local_project calls rmtree at most once, only after the
    user answered Yes, only on the item's own local path, and only when
    something exists there; when it does not call rmtree, the file system
    is left as it was. *)
Theorem rmtree_only_on_existing_local_path env (self : MerginProjectItem) h :
  exists o self' h' evs,
    remove_local_project env (self, h) = (o, (self', h'))
    /\ trace h' = trace h ++ evs
    /\ length (rmtree_calls evs) <= 1
    /\ (forall d, In d (rmtree_calls evs) ->
        path self = Some d /\ is_Some (fs h !! d)
        /\ env_question env "Remove local project" remove_local_question
           = Yes)
    /\ (rmtree_calls evs = [] -> fs h' = fs h).
Proof.
  rewrite remove_local_project_run.
  destruct (path self) as [[|c d']|]; cbn zeta.
  - eexists _, _, h, []. rewrite app_nil_r.
    split; [reflexivity|]. split; [reflexivity|]. split; [cbn; lia|].
    split; [intros d [] | reflexivity].
  - destruct (env_question env "Remove local project" remove_local_question).
    + destruct (fs h !! String c d') as [[|]|] eqn:F;
        eexists _, _, _, _; (split; [reflexivity|]); cbn;
        rewrite <- ?app_assoc; (split; [reflexivity|]); cbn;
        (split; [lia|]).
      * split; [|discriminate]. intros d [<-|[]].
        split; [reflexivity|].
        split; [change (is_Some (fs h !! String c d')); rewrite F;
                eexists; reflexivity | reflexivity].
      * split; [|discriminate]. intros d [<-|[]].
        split; [reflexivity|].
        split; [change (is_Some (fs h !! String c d')); rewrite F;
                eexists; reflexivity | reflexivity].
      * split; [intros d [] | reflexivity].
    + eexists _, _, _, _. split; [reflexivity|]. cbn.
      split; [reflexivity|]. cbn. split; [lia|].
      split; [intros d [] | reflexivity].
  - eexists _, _, h, []. rewrite app_nil_r.
    split; [reflexivity|]. split; [reflexivity|]. split; [cbn; lia|].
    split; [intros d [] | reflexivity].
Qed.

(** X7. When the stored local path names a regular file, a confirmed
    remove_local_project fails in rmtree: the exception leaves the method
    before the setting, the path field and the icon are touched, so the
    item stays local and its record stays in the settings. *)
Theorem remove_local_project_regular_file env (self : MerginProjectItem) h
    (d : string) :
  path self = Some d -> truthy (path self) = true ->
  env_question env "Remove local project" remove_local_question = Yes ->
  fs h !! d = Some RegularFile ->
  exists e h',
    remove_local_project env (self, h) = (Raised e, (self, h'))
    /\ settings h' = settings h
    /\ fs h' = fs h
    /\ offered self = [SlotOpenProject; SlotRemoveLocalProject].
Proof.
  intros Hp Ht Hq Hf. rewrite remove_local_project_run, Hp.
  rewrite Hp in Ht. destruct d as [|c d']; [discriminate Ht|].
  cbn zeta. rewrite Hq, Hf.
  eexists _, _. split; [reflexivity|]. cbn. repeat split.
  unfold offered, actions. rewrite Hp. reflexivity.
Qed.

Lemma remove_local_project_regular_file_witness :
  exists e h',
    remove_local_project good_env
      (local_item "alpha" "/data/alpha", file_host)
      = (Raised e, (local_item "alpha" "/data/alpha", h'))
    /\ settings h' = settings file_host
    /\ fs h' = fs file_host
    /\ offered (local_item "alpha" "/data/alpha")
       = [SlotOpenProject; SlotRemoveLocalProject].
Proof.
  apply (remove_local_project_regular_file good_env
           (local_item "alpha" "/data/alpha") file_host "/data/alpha");
    reflexivity.
Defined.

(** *** Operations followed by a rebuild of the item *)

(** X8. After a completed remove-local nothing exists at the removed path
    any more, and an item rebuilt for the same project (as a reload of the
    root does) is a remote one: no local path, cloud icon, download as its
    only action; the item that was operated on offers download only, too. *)
Theorem remove_then_rebuild env (self : MerginProjectItem) h (d : string) :
  path self = Some d -> truthy (path self) = true ->
  env_question env "Remove local project" remove_local_question = Yes ->
  fs h !! d <> Some RegularFile ->
  exists self' h' it h'',
    remove_local_project env (self, h) = (Returned tt, (self', h'))
    /\ fs h' !! d = None
    /\ offered self' = [SlotDownload]
    /\ MerginProjectItem_init (project_name self) h' = (Returned it, h'')
    /\ path it = None
    /\ icon it = cloud_icon
    /\ offered it = [SlotDownload].
Proof.
  intros Hp Ht Hq Hf. rewrite remove_local_project_run, Hp.
  rewrite Hp in Ht. destruct d as [|c d']; [discriminate Ht|].
  cbn zeta. rewrite Hq.
  destruct (fs h !! String c d') as [[|]|] eqn:F; try congruence;
    (eexists _, _, _, _; split; [reflexivity|]; cbn [fs];
     split; [rewrite ?lookup_pruned, ?in_group_refl; auto|];
     split; [reflexivity|];
     rewrite MerginProjectItem_init_run; cbn [settings];
     rewrite lookup_removed, in_group_refl;
     split; [reflexivity|]; repeat split).
Qed.

Lemma remove_then_rebuild_witness :
  exists self' h' it h'',
    remove_local_project good_env
      (local_item "alpha" "/data/alpha", alpha_host)
      = (Returned tt, (self', h'))
    /\ fs h' !! "/data/alpha" = None
    /\ offered self' = [SlotDownload]
    /\ MerginProjectItem_init "alpha" h' = (Returned it, h'')
    /\ path it = None
    /\ icon it = cloud_icon
    /\ offered it = [SlotDownload].
Proof.
  apply (remove_then_rebuild good_env (local_item "alpha" "/data/alpha")
           alpha_host "/data/alpha"); try reflexivity.
  vm_compute. discriminate.
Defined.

(** X9. The stored path survives a rebuild only with its directory: an
    item rebuilt for the project after a successful download has the
    download target as its local path and the folder icon when something
    exists at the target, and is a remote item (no path, cloud icon) when
    the client left nothing there, although the downloaded item itself
    shows the folder icon. *)
Theorem download_then_rebuild env (self : MerginProjectItem) h fs' :
  truthy (Some (env_getExistingDirectory env)) = true ->
  env_download_project env (configured_client (settings h))
    (project_name self) (download_target env self) (fs h)
    = (Returned tt, fs') ->
  exists self' h' it h'',
    download env (self, h) = (Returned tt, (self', h'))
    /\ icon self' = folder_icon
    /\ MerginProjectItem_init (project_name self) h' = (Returned it, h'')
    /\ (is_Some (fs' !! download_target env self) ->
        path it = Some (download_target env self) /\ icon it = folder_icon)
    /\ (fs' !! download_target env self = None ->
        path it = None /\ icon it = cloud_icon).
Proof.
  intros Hd Hf.
  pose proof (os_path_join_truthy _ (project_name self) Hd) as Ht.
  rewrite (download_run_succeeded_exact env self h fs' Hd Hf).
  eexists _, _, _, _. split; [reflexivity|]. split; [reflexivity|].
  rewrite MerginProjectItem_init_run. cbn [settings fs].
  rewrite lookup_insert_eq. split; [reflexivity|].
  unfold download_target in *.
  destruct (os_path_join (env_getExistingDirectory env) (project_name self))
    as [|c t]; [discriminate Ht|].
  cbn. split.
  - intros Hs. rewrite (bool_decide_eq_true_2 _ Hs). split; reflexivity.
  - intros Hn. rewrite Hn. cbn. split; reflexivity.
Qed.

Lemma download_then_rebuild_witness :
  exists self' h' it h'',
    download good_env (remote_item "alpha", empty_host)
      = (Returned tt, (self', h'))
    /\ icon self' = folder_icon
    /\ MerginProjectItem_init "alpha" h' = (Returned it, h'')
    /\ path it = Some "/home/user/alpha" /\ icon it = folder_icon.
Proof.
  destruct (download_then_rebuild good_env (remote_item "alpha") empty_host
              {[ "/home/user/alpha" := Directory ]} eq_refl eq_refl)
    as (self' & h' & it & h'' & Hrun & Hicon & Hinit & Hsome & _).
  exists self', h', it, h''.
  split; [exact Hrun|]. split; [exact Hicon|]. split; [exact Hinit|].
  apply Hsome. exists Directory. reflexivity.
Defined.

(** *** createChildren: what it builds and what it asks *)

Lemma project_items_exact projects : forall h,
  project_items projects h =
    (Returned (map (fun p => built_child h (proj_name p)) projects),
     extend h (map (fun p => EvSettingsValue (local_path_key (proj_name p)))
                 projects)).
Proof.
  induction projects as [|project rest IH]; intros h.
  - cbn. unfold ret, extend. cbn. rewrite app_nil_r. destruct h; reflexivity.
  - cbn [project_items]. unfold bind at 1.
    rewrite MerginProjectItem_init_run. cbn zeta.
    unfold bind at 1. rewrite IH. unfold ret.
    rewrite extend_extend. reflexivity.
Qed.

Lemma built_child_ok h name : child_ok h (built_child h name).
Proof.
  unfold built_child, child_ok.
  cbn [item_state item_name item_path icon project_name path].
  split; [reflexivity|]. split; [reflexivity|]. split; [reflexivity|].
  split; [reflexivity|]. intros d Hd. unfold stored_path in Hd.
  destruct (settings h !! normalized_key (local_path_key name))
    as [[|c d']|] eqn:S.
  - injection Hd as <-. split; [reflexivity | intros N; contradiction].
  - destruct (bool_decide (is_Some (fs h !! String c d'))) eqn:B;
      [|discriminate].
    injection Hd as <-.
    split; [reflexivity | intros _; exact (bool_decide_eq_true_1 _ B)].
  - discriminate.
Qed.

Lemma project_reads_calls (projects : list Project) :
  let reads := map (fun p => EvSettingsValue (local_path_key (proj_name p)))
                 projects in
  auth_calls reads = [] /\ listing_calls reads = []
  /\ download_calls reads = []
  /\ settings_keys reads
     = map (fun p => local_path_key (proj_name p)) projects.
Proof.
  induction projects as [|p rest (Ha & Hl & Hd & Hk)]; cbn.
  - repeat split.
  - repeat split; try assumption.
    unfold settings_keys in *. cbn in *. rewrite Hk. reflexivity.
Qed.

(** X10. createChildren never raises and never changes the host beyond
    the trace (settings, file system and cursor stay as they were).  Every
    node it returns is well formed: a project child is in state Populated,
    is named after its project, lives at /Mergin/<name>, has the folder
    icon exactly when it has a local path, and a local path it has is the
    stored one and, unless empty, exists; an error node lives at
    /Mergin/error.  The list is empty only when authentication succeeds and
    the server lists no project. *)
Theorem createChildren_returns_well_formed env h :
  let c := configured_client (settings h) in
  exists items h' evs,
    createChildren env h = (Returned items, h')
    /\ trace h' = trace h ++ evs
    /\ settings h' = settings h /\ fs h' = fs h /\ cursors h' = cursors h
    /\ Forall (child_ok h) items
    /\ (items = [] <->
        env_auth_ok env (mc_url c) (mc_username c) (mc_password c) = true
        /\ env_projects_list env c ["valid_qgis"] = Returned []).
Proof.
  intros c. rewrite createChildren_run. fold c. cbn zeta.
  destruct (env_auth_ok env (mc_url c) (mc_username c) (mc_password c)).
  - destruct (env_projects_list env c ["valid_qgis"]) as [projects|e].
    + rewrite project_items_exact.
      eexists _, _, _. split; [reflexivity|]. cbn [trace extend].
      rewrite <- app_assoc. split; [reflexivity|].
      split; [reflexivity|]. split; [reflexivity|]. split; [reflexivity|].
      split.
      * apply Forall_forall. intros i Hi.
        apply list_elem_of_In, in_map_iff in Hi as (p & <- & _).
        apply (built_child_ok
                 (extend h ((connection_reads ++
                    [EvAuthOk (mc_url c) (mc_username c) (mc_password c)])
                    ++ [EvProjectsList c ["valid_qgis"]]))).
      * destruct projects; cbn; split; try discriminate; auto.
        intros [_ H]. discriminate H.
    + eexists _, _, _. split; [reflexivity|]. cbn [trace extend].
      split; [reflexivity|].
      split; [reflexivity|]. split; [reflexivity|]. split; [reflexivity|].
      split.
      * apply Forall_cons. split; [|apply Forall_nil; exact I].
        destruct (except_URLError (exn_class e)); reflexivity.
      * split; [discriminate | intros [_ H]; discriminate H].
  - eexists _, _, _. split; [reflexivity|]. cbn [trace extend].
    split; [reflexivity|].
    split; [reflexivity|]. split; [reflexivity|]. split; [reflexivity|].
    split.
    + apply Forall_cons. split; [reflexivity | apply Forall_nil; exact I].
    + split; [discriminate | intros [H _]; discriminate H].
Qed.

(** X11. createChildren checks the credentials exactly once, with the
    client's URL, user name and password; it asks for the project list
    exactly once, with the filter valid_qgis, when the check succeeds and
    never when it fails; it never calls download_project; and it reads the
    stored path of a project only for the projects the listing returned. *)
Theorem createChildren_calls env h :
  let c := configured_client (settings h) in
  let auth := env_auth_ok env (mc_url c) (mc_username c) (mc_password c) in
  exists o h' evs,
    createChildren env h = (o, h')
    /\ trace h' = trace h ++ evs
    /\ auth_calls evs = [(mc_url c, mc_username c, mc_password c)]
    /\ listing_calls evs = (if auth then [(c, ["valid_qgis"])] else [])
    /\ download_calls evs = []
    /\ settings_keys evs =
         connection_keys ++
         (if auth then
            match env_projects_list env c ["valid_qgis"] with
            | Returned projects =>
                map (fun p => local_path_key (proj_name p)) projects
            | Raised _ => []
            end
          else []).
Proof.
  intros c auth. rewrite createChildren_run. fold c. fold auth. cbn zeta.
  destruct auth.
  - destruct (env_projects_list env c ["valid_qgis"]) as [projects|e].
    + rewrite project_items_exact.
      destruct (project_reads_calls projects) as (Ha & Hl & Hd & Hk).
      cbn zeta in *.
      eexists _, _, _. split; [reflexivity|]. cbn [trace extend].
      rewrite <- app_assoc. split; [reflexivity|].
      unfold auth_calls, listing_calls, download_calls, settings_keys in *.
      rewrite !omap_app, Ha, Hl, Hd, Hk. repeat split.
    + eexists _, _, _. split; [reflexivity|]. cbn [trace extend].
      split; [reflexivity|]. repeat split.
  - eexists _, _, _. split; [reflexivity|]. cbn [trace extend].
    split; [reflexivity|]. repeat split.
Qed.

(** X12. Expanding the root again gives the same children: createChildren
    run on the host its previous run left behind (as Reload does, with the
    same server answers and nothing else changed in between) returns the
    same list of nodes. *)
Theorem createChildren_again env h :
  exists items h',
    createChildren env h = (Returned items, h')
    /\ (createChildren env h').1 = Returned items.
Proof.
  rewrite createChildren_run. cbn zeta.
  set (c := configured_client (settings h)).
  destruct (env_auth_ok env (mc_url c) (mc_username c) (mc_password c))
    eqn:Hauth.
  - destruct (env_projects_list env c ["valid_qgis"]) as [projects|e] eqn:Hl.
    + rewrite project_items_exact.
      eexists _, _. split; [reflexivity|].
      rewrite createChildren_run. cbn zeta. cbn [settings extend].
      fold c. rewrite Hauth, Hl, project_items_exact. reflexivity.
    + eexists _, _. split; [reflexivity|].
      rewrite createChildren_run. cbn zeta. cbn [settings extend].
      fold c. rewrite Hauth, Hl. reflexivity.
  - eexists _, _. split; [reflexivity|].
    rewrite createChildren_run. cbn zeta. cbn [settings extend].
    fold c. rewrite Hauth. reflexivity.
Qed.

(** *** The menu and the guards of the methods *)

(** X13. The menu and the methods use the same test.  open and
    remove-local are offered together or not at all; when they are not
    offered, calling open_project or remove_local_project anyway changes
    nothing and records no call at all; when they are offered,
    open_project does look for project files in the item's local path and
    remove_local_project does ask for confirmation. *)
Theorem menu_matches_guards env (self : MerginProjectItem) h :
  (In SlotOpenProject (offered self)
     <-> In SlotRemoveLocalProject (offered self))
  /\ (~ In SlotOpenProject (offered self) ->
      offered self = [SlotDownload]
      /\ open_project env (self, h) = (Returned tt, (self, h))
      /\ remove_local_project env (self, h) = (Returned tt, (self, h)))
  /\ (In SlotOpenProject (offered self) ->
      exists d o s o' s' evs evs',
        path self = Some d
        /\ open_project env (self, h) = (o, s)
        /\ trace s.2 = trace h ++ EvFindQgisFiles d :: evs
        /\ remove_local_project env (self, h) = (o', s')
        /\ trace s'.2 = trace h ++
             EvQuestion "Remove local project" remove_local_question :: evs').
Proof.
  rewrite remove_local_project_run.
  destruct (open_project_run env self h) as (oevs & -> & Hoevs).
  unfold offered, actions.
  destruct (path self) as [[|c d']|] eqn:Hp; cbn [truthy map action_triggered].
  - split; [split; intros [H|[]]; discriminate H|].
    split; [|intros [H|[]]; discriminate H].
    intros _. subst oevs. rewrite app_nil_r. destruct h; auto.
  - cbn zeta. split; [split; intros _; cbn; auto|].
    split; [intros N; exfalso; apply N; cbn; auto|]. intros _.
    subst oevs.
    destruct (env_question env "Remove local project" remove_local_question).
    + destruct (fs h !! String c d') as [[|]|];
        eexists _, _, _, _, _, _, _; (split; [reflexivity|]);
        (split; [reflexivity|]); (split; [reflexivity|]);
        (split; [reflexivity|]); cbn; rewrite <- ?app_assoc; reflexivity.
    + eexists _, _, _, _, _, _, _. split; [reflexivity|].
      split; [reflexivity|]. split; [reflexivity|].
      split; [reflexivity|]. reflexivity.
  - split; [split; intros [H|[]]; discriminate H|].
    split; [|intros [H|[]]; discriminate H].
    intros _. subst oevs. rewrite app_nil_r. destruct h; auto.
Qed.

Lemma menu_matches_guards_witness :
  offered (remote_item "alpha") = [SlotDownload]
  /\ open_project good_env (remote_item "alpha", alpha_host)
     = (Returned tt, (remote_item "alpha", alpha_host))
  /\ remove_local_project good_env (remote_item "alpha", alpha_host)
     = (Returned tt, (remote_item "alpha", alpha_host)).
Proof.
  destruct (menu_matches_guards good_env (remote_item "alpha") alpha_host)
    as (_ & Hhidden & _).
  apply Hhidden. cbn. intros [H|[]]. discriminate H.
Defined.

(** *** Records and connection settings *)


(** *** Construction: the cases the stored path can be in *)

(** X16. Constructing a project item never fails, reads exactly one
    setting and writes none.  With no stored path the item is remote (path
    None, cloud icon); with a non-empty stored path at which something
    exists the item is local: it keeps exactly that path, has the folder
    icon and offers open and remove-local.  It starts out not populated. *)
Theorem init_by_stored_path (name : string) h :
  exists it h',
    MerginProjectItem_init name h = (Returned it, h')
    /\ h' = extend h [EvSettingsValue (local_path_key name)]
    /\ project_name it = name
    /\ item_state it = NotPopulated
    /\ (settings h !! normalized_key (local_path_key name) = None ->
        path it = None /\ icon it = cloud_icon)
    /\ (forall p,
        settings h !! normalized_key (local_path_key name) = Some p ->
        p <> "" -> is_Some (fs h !! p) ->
        path it = Some p /\ icon it = folder_icon
        /\ offered it = [SlotOpenProject; SlotRemoveLocalProject]).
Proof.
  rewrite MerginProjectItem_init_run. cbn zeta.
  eexists _, _. split; [reflexivity|]. split; [reflexivity|].
  split; [reflexivity|]. split; [reflexivity|].
  cbn [path icon]. split.
  - intros ->. split; reflexivity.
  - intros p -> Hp Hs. destruct p as [|c d']; [contradiction|].
    rewrite (bool_decide_eq_true_2 _ Hs). unfold offered, actions.
    cbn. repeat split.
Qed.

Lemma init_by_stored_path_witness :
  exists it h',
    MerginProjectItem_init "alpha" file_host = (Returned it, h')
    /\ h' = extend file_host [EvSettingsValue (local_path_key "alpha")]
    /\ path it = Some "/data/alpha" /\ icon it = folder_icon
    /\ offered it = [SlotOpenProject; SlotRemoveLocalProject].
Proof.
  destruct (init_by_stored_path "alpha" file_host)
    as (it & h' & Hrun & Hh & _ & _ & _ & Hlocal).
  exists it, h'. split; [exact Hrun|]. split; [exact Hh|].
  apply Hlocal.
  - reflexivity.
  - discriminate.
  - exists RegularFile. reflexivity.
Defined.

(** *** Download followed by remove-local *)

(** X17. Removing the local copy undoes what a download did to the
    settings: after a successful download and a completed remove-local of
    the downloaded item, the settings store is exactly what it was before
    the download, provided it held nothing at the setting the project's
    path key names (after normalisation) or beneath it; the item is remote
    again (path None, cloud icon). *)
Theorem download_then_remove_roundtrip env (self : MerginProjectItem) h fs' :
  truthy (Some (env_getExistingDirectory env)) = true ->
  env_download_project env (configured_client (settings h))
    (project_name self) (download_target env self) (fs h)
    = (Returned tt, fs') ->
  (forall k,
     in_group (normalized_key (local_path_key (project_name self))) k = true ->
     settings h !! k = None) ->
  env_question env "Remove local project" remove_local_question = Yes ->
  fs' !! download_target env self <> Some RegularFile ->
  exists self1 h1 self2 h2,
    download env (self, h) = (Returned tt, (self1, h1))
    /\ remove_local_project env (self1, h1) = (Returned tt, (self2, h2))
    /\ settings h2 = settings h
    /\ path self2 = None /\ icon self2 = cloud_icon
    /\ project_name self2 = project_name self.
Proof.
  intros Hd Hf Hfree Hq Hkind.
  pose proof (os_path_join_truthy _ (project_name self) Hd) as Ht.
  rewrite (download_run_succeeded_exact env self h fs' Hd Hf).
  unfold download_target in *.
  destruct (os_path_join (env_getExistingDirectory env) (project_name self))
    as [|c t] eqn:Hj; [discriminate Ht|].
  assert (Hstore :
    filter (fun kv =>
              in_group (normalized_key (local_path_key (project_name self)))
                kv.1 = false)
      (<[normalized_key (local_path_key (project_name self)) := String c t]>
         (settings h))
    = settings h).
  { apply map_eq. intros k. rewrite lookup_removed.
    destruct (in_group (normalized_key (local_path_key (project_name self)))
                k) eqn:G.
    - symmetry. apply Hfree. exact G.
    - apply lookup_insert_ne. intros <-. rewrite in_group_refl in G.
      discriminate G. }
  match goal with
  | |- exists self1 h1 _ _, (_, (?a, ?b)) = _ /\ _ => exists a, b
  end.
  rewrite remove_local_project_run. cbn [path downloaded fs].
  cbn zeta. rewrite Hq.
  destruct (fs' !! String c t) as [[|]|]; try congruence;
    (eexists _, _; split; [reflexivity|]; split; [reflexivity|]);
    cbn [settings project_name removed];
    (split; [exact Hstore|]); repeat split.
Qed.

Lemma download_then_remove_roundtrip_witness :
  exists self1 h1 self2 h2,
    download good_env (remote_item "alpha", empty_host)
      = (Returned tt, (self1, h1))
    /\ remove_local_project good_env (self1, h1) = (Returned tt, (self2, h2))
    /\ settings h2 = settings empty_host
    /\ path self2 = None /\ icon self2 = cloud_icon
    /\ project_name self2 = "alpha".
Proof.
  apply (download_then_remove_roundtrip good_env (remote_item "alpha")
           empty_host {[ "/home/user/alpha" := Directory ]}).
  - reflexivity.
  - reflexivity.
  - intros k _. apply lookup_empty.
  - reflexivity.
  - vm_compute. discriminate.
Defined.
